(** * TestRail analyzer: a shallow embedding of [testrail_analyzer.py]

    The development follows the layout of the Python module:

    - the remote data client ([TestRailAPI]: [send_get], the paginated
      [get_milestones], [get_plans] and [get_results_for_run]);
    - the naming and date helpers ([parse_build_date],
      [matches_release_pattern]);
    - the cache store ([save_build_data_to_csv],
      [load_build_data_from_csv], [check_cached_builds]);
    - the percentage helper ([calculate_status_percentages]);
    - the accumulation of run counts into a build record (the body of the
      "Fetch Data" handler).

    Modelling conventions.

    - A Python [str] is a Rocq [string]; each [ascii] stands for the code
      point of the same number, so the strings of the model are the Python
      strings over U+0000..U+00FF.  The character classes [\w] and [\d] and
      [str.lower] are the Unicode ones restricted to that range.
    - A Python [int] is a [Z].  [str(n)] and [int(s)] go through the decimal
      numerals of the standard library.
    - A raised exception is the [Raise] case of [result]; [try]/[except]
      blocks are matches on it.
    - A [dict] is an association list in insertion order, assigned to with
      [dict_set]; a [defaultdict] is read with [dict_get_default].
    - Python's [/] on integers is taken in the rationals [Q].
    - The HTTP transport and the file system are explicit state: a [server]
      answers a request from the history of requests, a [world] records the
      requests sent and the messages shown, a [filesystem] maps a path to the
      rows of a CSV file.  [while True] loops carry fuel; [None] stands for a
      loop that has not finished within the fuel. *)

From Stdlib Require Import ZArith QArith Qabs List String Ascii Bool Lia.
From Stdlib Require Import Decimal DecimalString DecimalZ.
From Stdlib Require Permutation Sorted.
Import ListNotations.

Local Open Scope string_scope.
Local Open Scope list_scope.
Local Open Scope Z_scope.

(** ** Python values and exceptions *)

Inductive exn : Type :=
| ValueError
| KeyError
| IndexError
| TypeError
| StopIteration
| FileNotFoundError
| Exception (msg : string).

Inductive result (A : Type) : Type :=
| Ok (a : A)
| Raise (e : exn).

Arguments Ok {A} a.
Arguments Raise {A} e.

Definition bind {A B : Type} (r : result A) (k : A -> result B) : result B :=
  match r with
  | Ok a => k a
  | Raise e => Raise e
  end.

Notation "x <- c ;; k" := (bind c (fun x => k))
  (at level 61, c at next level, right associativity).

(** [str(n)] for an integer. *)
Definition py_str (n : Z) : string := NilZero.string_of_int (Z.to_int n).

(** [int(s)]: an optional minus sign followed by decimal digits; every other
    string is a [ValueError].  (Python also accepts a plus sign, surrounding
    blanks and underscores between digits; none of them is ever written by
    the program.) *)
Definition py_int (s : string) : result Z :=
  match NilZero.int_of_string s with
  | Some d => Ok (Z.of_int d)
  | None => Raise ValueError
  end.

Definition len {A : Type} (l : list A) : Z := Z.of_nat (List.length l).

(** Code point of a character. *)
Definition ord (c : ascii) : Z := Z.of_nat (nat_of_ascii c).

Definition in_range (lo hi : Z) (c : ascii) : bool :=
  (lo <=? ord c) && (ord c <=? hi).

Definition is_ascii_upper (c : ascii) : bool := in_range 65 90 c.
Definition is_ascii_lower (c : ascii) : bool := in_range 97 122 c.
Definition is_ascii_digit (c : ascii) : bool := in_range 48 57 c.

(** The set [A-Za-z0-9_-] of the specification. *)
Definition in_spec_set (c : ascii) : bool :=
  is_ascii_upper c || is_ascii_lower c || is_ascii_digit c
  || (ord c =? 95) || (ord c =? 45).

(** [\d] of a [str] pattern: the decimal digits; below U+0100 these are
    [0-9]. *)
Definition re_digit (c : ascii) : bool := is_ascii_digit c.

(** Alphanumeric code points below U+0100 ([str.isalnum]): the ASCII letters
    and digits, the ordinal indicators U+00AA and U+00BA, the micro sign
    U+00B5, the superscript digits U+00B2, U+00B3, U+00B9, the vulgar
    fractions U+00BC..U+00BE and the letters U+00C0..U+00FF other than the
    multiplication and division signs U+00D7 and U+00F7. *)
Definition is_alnum (c : ascii) : bool :=
  is_ascii_upper c || is_ascii_lower c || is_ascii_digit c
  || (ord c =? 170) || (ord c =? 186) || (ord c =? 181)
  || (ord c =? 178) || (ord c =? 179) || (ord c =? 185)
  || in_range 188 190 c
  || in_range 192 214 c || in_range 216 246 c || in_range 248 255 c.

(** [\w] of a [str] pattern: alphanumeric or underscore. *)
Definition re_word (c : ascii) : bool := is_alnum c || (ord c =? 95).

(** [str.lower] below U+0100: [A-Z] and the capital letters U+00C0..U+00DE
    (U+00D7 apart) move up by 32. *)
Definition lower_char (c : ascii) : ascii :=
  if is_ascii_upper c || in_range 192 214 c || in_range 216 222 c
  then ascii_of_nat (nat_of_ascii c + 32)
  else c.

Fixpoint map_string (f : ascii -> ascii) (s : string) : string :=
  match s with
  | EmptyString => EmptyString
  | String c s' => String (f c) (map_string f s')
  end.

Definition lower (s : string) : string := map_string lower_char s.

(** [s.startswith(p)]. *)
Definition startswith (s p : string) : bool := String.prefix p s.

(** [sub in s]. *)
Fixpoint contains (sub s : string) : bool :=
  String.prefix sub s ||
  match s with
  | EmptyString => false
  | String _ s' => contains sub s'
  end.

(** ** Regular expressions used by the helpers *)

(** [re.search]: the match at the leftmost position where the pattern
    matches; [match_at] is the pattern anchored at the head of its
    argument. *)
Fixpoint re_search {G : Type} (match_at : string -> option G) (s : string)
  : option G :=
  match match_at s with
  | Some g => Some g
  | None =>
      match s with
      | EmptyString => None
      | String _ s' => re_search match_at s'
      end
  end.

(** [(\d{n})]: exactly [n] digits; the group and the rest of the input. *)
Fixpoint digits (n : nat) (s : string) : option (string * string) :=
  match n with
  | O => Some (EmptyString, s)
  | S n' =>
      match s with
      | EmptyString => None
      | String c s' =>
          if re_digit c then
            match digits n' s' with
            | Some (g, rest) => Some (String c g, rest)
            | None => None
            end
          else None
      end
  end.

(** [[-]?] followed by the continuation [k]: greedy, with backtracking to the
    empty alternative. *)
Definition opt_hyphen {G : Type} (k : string -> option G) (s : string)
  : option G :=
  match s with
  | String c s' =>
      if (ord c =? 45) then
        match k s' with
        | Some g => Some g
        | None => k s
        end
      else k s
  | EmptyString => k s
  end.

(** [date_pattern1 = (\d{4})(\d{2})(\d{2})(\d{4})]. *)
Definition date_pattern1 (s : string) : option (string * string * string * string) :=
  match digits 4 s with
  | Some (year, s1) =>
      match digits 2 s1 with
      | Some (month, s2) =>
          match digits 2 s2 with
          | Some (day, s3) =>
              match digits 4 s3 with
              | Some (time, _) => Some (year, month, day, time)
              | None => None
              end
          | None => None
          end
      | None => None
      end
  | None => None
  end.

(** [date_pattern2 = (\d{4})(\d{2})(\d{2})_(\d{6})]. *)
Definition date_pattern2 (s : string) : option (string * string * string * string) :=
  match digits 4 s with
  | Some (year, s1) =>
      match digits 2 s1 with
      | Some (month, s2) =>
          match digits 2 s2 with
          | Some (day, String c s3) =>
              if (ord c =? 95) then
                match digits 6 s3 with
                | Some (time, _) => Some (year, month, day, time)
                | None => None
                end
              else None
          | _ => None
          end
      | None => None
      end
  | None => None
  end.

(** [date_pattern3 = (\d{4})[-]?(\d{2})[-]?(\d{2})]. *)
Definition date_pattern3 (s : string) : option (string * string * string) :=
  match digits 4 s with
  | Some (year, s1) =>
      opt_hyphen (fun s1' =>
        match digits 2 s1' with
        | Some (month, s2) =>
            opt_hyphen (fun s2' =>
              match digits 2 s2' with
              | Some (day, _) => Some (year, month, day)
              | None => None
              end) s2
        | None => None
        end) s1
  | None => None
  end.

(** ** Calendar dates *)

Record date : Type := mkDate { year : Z; month : Z; day : Z }.

Definition is_leap (y : Z) : bool :=
  (y mod 4 =? 0) && (negb (y mod 100 =? 0) || (y mod 400 =? 0)).

Definition days_in_month (y m : Z) : Z :=
  if m =? 2 then (if is_leap y then 29 else 28)
  else if (m =? 4) || (m =? 6) || (m =? 9) || (m =? 11) then 30
  else 31.

(** A date of the proleptic Gregorian calendar, years 1 to 9999. *)
Definition valid_date (d : date) : Prop :=
  1 <= year d <= 9999 /\ 1 <= month d <= 12 /\
  1 <= day d <= days_in_month (year d) (month d).

(** [datetime(year, month, day)]: [ValueError] unless the three numbers name
    a day of the calendar. *)
Definition datetime (y m d : Z) : result date :=
  if (1 <=? y) && (y <=? 9999) && (1 <=? m) && (m <=? 12)
     && (1 <=? d) && (d <=? days_in_month y m)
  then Ok (mkDate y m d)
  else Raise ValueError.

(** The body of each [try] block of [parse_build_date]:
    [datetime(int(year), int(month), int(day))]. *)
Definition datetime_of_groups (year month day : string) : result date :=
  y <- py_int year ;;
  m <- py_int month ;;
  d <- py_int day ;;
  datetime y m d.

(** [try: return <body>  except: pass], followed by [rest]. *)
Definition try_return {A : Type} (body : result A) (rest : result (option A))
  : result (option A) :=
  match body with
  | Ok a => Ok (Some a)
  | Raise _ => rest
  end.

(** ** Naming and date helpers *)

Definition parse_build_date (milestone_name : string) : result (option date) :=
  let after3 := Ok None in
  let after2 :=
    match re_search date_pattern3 milestone_name with
    | Some (year, month, day) =>
        try_return (datetime_of_groups year month day) after3
    | None => after3
    end in
  let after1 :=
    match re_search date_pattern2 milestone_name with
    | Some (year, month, day, _) =>
        try_return (datetime_of_groups year month day) after2
    | None => after2
    end in
  match re_search date_pattern1 milestone_name with
  | Some (year, month, day, _) =>
      try_return (datetime_of_groups year month day) after1
  | None => after1
  end.

(** [parse_build_date(milestone_name) is not None]. *)
Definition has_build_date (milestone_name : string) : result bool :=
  d <- parse_build_date milestone_name ;;
  Ok (match d with Some _ => true | None => false end).

(** [a and b] for a boolean [a]: [b] is evaluated only when [a] holds. *)
Definition and_then (a : bool) (b : result bool) : result bool :=
  if a then b else Ok false.

Definition matches_release_pattern (milestone_name release_milestone : string)
  : result bool :=
  let ms_lower := lower milestone_name in
  let release_lower := lower release_milestone in
  if (release_lower =? "cs-1")%string then
    and_then (startswith ms_lower "cs-17-") (has_build_date milestone_name)
  else if (release_lower =? "switch-17")%string || (release_lower =? "switch-18")%string then
    and_then (startswith ms_lower (release_lower ++ "-")%string)
             (has_build_date milestone_name)
  else if (release_lower =? "nightly")%string then
    and_then (startswith ms_lower "t-") (has_build_date milestone_name)
  else if (release_lower =? "aurora2")%string then
    and_then (contains "cisco_ios_xe_software" ms_lower
              && (contains "bld_v17" ms_lower || contains "bld_v16" ms_lower))
             (has_build_date milestone_name)
  else if (release_lower =? "trunk")%string then
    has_build_date milestone_name
  else
    and_then (startswith ms_lower (release_lower ++ "-")%string)
             (has_build_date milestone_name).

(** ** Cache key *)

(** [re.sub(r'[^\w\-_]', '_', name)]. *)
Definition safe_char (c : ascii) : ascii :=
  if re_word c || (ord c =? 45) || (ord c =? 95) then c else "_"%char.

Definition safe_name (name : string) : string := map_string safe_char name.

(** ** Remote data client *)

#[local] Set Warnings "-register-all".

(** A decoded JSON value.  Numbers are the integers. *)
Inductive json : Type :=
| JNull
| JBool (b : bool)
| JNum (n : Z)
| JStr (s : string)
| JList (items : list json)
| JDict (fields : list (string * json)).

(** What [requests.get] does with one request: it raises [Timeout] or
    [ConnectionError], or it returns a response with a status code, a text
    and, when the text is JSON, its decoding. *)
Inductive http_outcome : Type :=
| Timeout
| ConnectionError
| Response (status_code : Z) (text : string) (decoded : option json).

(** The server answers a URL, given the URLs requested before (oldest
    first). *)
Definition server : Type := list string -> string -> http_outcome.

Inductive ui_event : Type :=
| UiText (msg : string)
| UiWarning (msg : string)
| UiError (msg : string).

Record world : Type := mkWorld {
  requests : list string;
  shown : list ui_event
}.

Definition new_world : world := mkWorld [] [].

Definition st_show (e : ui_event) (w : world) : world :=
  mkWorld (requests w) (shown w ++ [e]).

(** [str(e)] for the exceptions of the module. *)
Definition exn_message (e : exn) : string :=
  match e with
  | Exception msg => msg
  | _ => ""
  end.

(** The URL [send_get] requests for [uri]. *)
Definition api_url (base_url uri : string) : string :=
  (base_url ++ "/index.php?/api/v2/" ++ uri)%string.

(** The URI of one page of [get_milestones] or [get_plans]. *)
Definition page_uri (endpoint : string) (project_id offset : Z) : string :=
  (endpoint ++ "/" ++ py_str project_id ++ "&offset=" ++ py_str offset)%string.

(** The URI of one page of [get_results_for_run]. *)
Definition results_uri (run_id offset current_limit : Z) : string :=
  ("get_results_for_run/" ++ py_str run_id ++ "&offset=" ++ py_str offset
   ++ "&limit=" ++ py_str current_limit)%string.

Section Client.

(** [self.base_url] and the server behind it. *)
Variable base_url : string.
Variable srv : server.

Definition send_get (uri : string) (w : world) : result json * world :=
  let url := api_url base_url uri in
  let w' := mkWorld (requests w ++ [url]) (shown w) in
  match srv (requests w) url with
  | Timeout =>
      (Raise (Exception ("TestRail API timeout after 30 seconds for: " ++ uri)), w')
  | ConnectionError =>
      (Raise (Exception ("Connection error to TestRail API for: " ++ uri)), w')
  | Response status_code text decoded =>
      if negb (status_code =? 200) then
        (Raise (Exception ("TestRail API returned " ++ py_str status_code
                           ++ ": " ++ text)), w')
      else
        match decoded with
        | Some j => (Ok j, w')
        | None =>
            (Raise (Exception ("Invalid JSON response from TestRail: "
                               ++ substring 0 200 text)), w')
        end
  end.

(** The loop shared, word for word, by [get_milestones] and [get_plans];
    [endpoint] is ["get_milestones"] or ["get_plans"], [collected] the list
    built so far. *)
Fixpoint get_pages (fuel : nat) (endpoint : string) (project_id : Z)
         (collected : list json) (offset : Z) (w : world)
  : option (result json * world) :=
  match fuel with
  | O => None
  | S fuel' =>
      match send_get (page_uri endpoint project_id offset) w with
      | (Raise _, w1) =>                         (* except: break *)
          Some (Ok (JList collected), w1)
      | (Ok (JList response), w1) =>
          match response with
          | [] => Some (Ok (JList collected), w1)
          | _ :: _ =>
              let collected' := collected ++ response in
              let offset' := offset + len response in
              if len response <? 250 then Some (Ok (JList collected'), w1)
              else get_pages fuel' endpoint project_id collected' offset' w1
          end
      | (Ok response, w1) =>                     (* not paginated *)
          Some (Ok response, w1)
      end
  end.

Definition get_milestones (fuel : nat) (project_id : Z) (w : world)
  : option (result json * world) :=
  get_pages fuel "get_milestones" project_id [] 0 w.

Definition get_plans (fuel : nat) (project_id : Z) (w : world)
  : option (result json * world) :=
  get_pages fuel "get_plans" project_id [] 0 w.

Definition batch_size : Z := 250.

(** The head of the loop of [get_results_for_run]: the limit of the next
    request, or [None] for [break]. *)
Definition next_limit (limit : option Z) (results : list json) : option Z :=
  match limit with
  | None => Some batch_size
  | Some l =>
      if l =? 0 then Some batch_size
      else
        let remaining := l - len results in
        if remaining <=? 0 then None
        else if remaining <? batch_size then Some remaining
        else Some batch_size
  end.

Fixpoint get_results_loop (fuel : nat) (run_id : Z) (limit : option Z)
         (results : list json) (offset : Z) (w : world)
  : option (result (list json) * world) :=
  match fuel with
  | O => None
  | S fuel' =>
      match next_limit limit results with
      | None => Some (Ok results, w)
      | Some current_limit =>
          match send_get (results_uri run_id offset current_limit) w with
          | (Raise e, w1) =>                     (* except Exception as e *)
              Some (Ok results,
                    st_show (UiError ("Error fetching results for run "
                                      ++ py_str run_id ++ ": "
                                      ++ exn_message e)) w1)
          | (Ok (JList (b :: bs)), w1) =>
              let batch := b :: bs in
              let results' := results ++ batch in
              if len batch <? current_limit then Some (Ok results', w1)
              else
                let offset' := offset + len batch in
                let w2 :=
                  if (0 <? offset') && (offset' mod 1000 =? 0) then
                    st_show (UiText ("    Fetched " ++ py_str offset'
                                     ++ " results so far...")) w1
                  else w1 in
                if 10000 <? len results' then
                  Some (Ok results',
                        st_show (UiWarning
                          ("Large number of results ("
                           ++ py_str (len results') ++ ") for run "
                           ++ py_str run_id
                           ++ ". Stopping to prevent timeout.")) w2)
                else get_results_loop fuel' run_id limit results' offset' w2
          | (Ok _, w1) =>            (* not batch or not a list: break *)
              Some (Ok results, w1)
          end
      end
  end.

Definition get_results_for_run (fuel : nat) (run_id : Z) (limit : option Z)
           (w : world) : option (result (list json) * world) :=
  get_results_loop fuel run_id limit [] 0 w.

End Client.

(** ** Build records *)

(** The six overall counts of a build. *)
Record counts : Type := mkCounts {
  passed : Z;
  failed : Z;
  error : Z;
  blocked : Z;
  retest : Z;
  skipped : Z
}.

(** A [dict] in insertion order. *)
Definition dict (V : Type) : Type := list (string * V).

Fixpoint dict_get {V : Type} (k : string) (d : dict V) : option V :=
  match d with
  | [] => None
  | (k', v) :: d' => if (k' =? k)%string then Some v else dict_get k d'
  end.

(** [d[k] = v]: an existing key keeps its place, a new key goes last. *)
Fixpoint dict_set {V : Type} (k : string) (v : V) (d : dict V) : dict V :=
  match d with
  | [] => [(k, v)]
  | (k', v') :: d' =>
      if (k' =? k)%string then (k', v) :: d' else (k', v') :: dict_set k v d'
  end.

(** The value read by [d[k]] on a [defaultdict]. *)
Definition dict_get_default {V : Type} (k : string) (default : V) (d : dict V)
  : V :=
  match dict_get k d with
  | Some v => v
  | None => default
  end.


(** One platform and topology: its counts and its failures by section. *)
Record bucket : Type := mkBucket {
  b_passed : Z;
  b_failed : Z;
  b_error : Z;
  sections : dict Z
}.

Inductive device : Type := single | stack.

Record platform_data : Type := mkPlatform {
  on_single : bucket;
  on_stack : bucket
}.

Record build_data : Type := mkBuild {
  bd_name : option string;      (* absent until the key is assigned *)
  bd_date : option string;
  overall : counts;
  platforms : dict platform_data
}.

Definition empty_bucket : bucket := mkBucket 0 0 0 [].

(** The value made by the [defaultdict] factory of ['platforms']. *)
Definition empty_platform : platform_data := mkPlatform empty_bucket empty_bucket.

Definition zero_counts : counts := mkCounts 0 0 0 0 0 0.

Definition device_name (d : device) : string :=
  match d with
  | single => "single"
  | stack => "stack"
  end.

Definition bucket_of (pd : platform_data) (d : device) : bucket :=
  match d with
  | single => on_single pd
  | stack => on_stack pd
  end.

Definition with_bucket (pd : platform_data) (d : device) (b : bucket)
  : platform_data :=
  match d with
  | single => mkPlatform b (on_stack pd)
  | stack => mkPlatform (on_single pd) b
  end.

(** A write through [build_data['platforms'][platform][device_type]]: the
    platform is created by the [defaultdict] when it is new. *)
Definition update_bucket (platform : string) (d : device)
           (f : bucket -> bucket) (ps : dict platform_data)
  : dict platform_data :=
  let pd := dict_get_default platform empty_platform ps in
  dict_set platform (with_bucket pd d (f (bucket_of pd d))) ps.

Definition with_platforms (bd : build_data) (ps : dict platform_data)
  : build_data :=
  mkBuild (bd_name bd) (bd_date bd) (overall bd) ps.

Definition with_overall (bd : build_data) (c : counts) : build_data :=
  mkBuild (bd_name bd) (bd_date bd) c (platforms bd).

(** ** Cache store *)

(** A row of a CSV file, as [csv.writer] takes it and [csv.reader] gives it
    back. *)
Definition row : Type := list string.

Definition filesystem : Type := string -> option (list row).

Definition write_file (fs : filesystem) (path : string) (rows : list row)
  : filesystem :=
  fun p => if (p =? path)%string then Some rows else fs p.

Fixpoint ends_with_slash (s : string) : bool :=
  match s with
  | EmptyString => false
  | String c EmptyString => (ord c =? 47)
  | String _ s' => ends_with_slash s'
  end.

(** [os.path.join(a, b)]. *)
Definition path_join (a b : string) : string :=
  if startswith b "/" then b
  else if (a =? "")%string || ends_with_slash a then (a ++ b)%string
  else (a ++ "/" ++ b)%string.

(** The file of a build in the cache. *)
Definition cache_file (cache_dir release_milestone build_name : string)
  : string :=
  path_join (path_join cache_dir release_milestone)
            (safe_name build_name ++ ".csv")%string.

Definition summary_rows (name date : string) (c : counts) : list row :=
  [ ["SUMMARY"];
    ["metric"; "value"];
    ["name"; name];
    ["date"; date];
    ["passed"; py_str (passed c)];
    ["failed"; py_str (failed c)];
    ["error"; py_str (error c)];
    ["blocked"; py_str (blocked c)];
    ["retest"; py_str (retest c)];
    ["skipped"; py_str (skipped c)];
    [] ].

Definition platform_row (platform : string) (pd : platform_data) (d : device)
  : row :=
  [ platform; device_name d;
    py_str (b_passed (bucket_of pd d));
    py_str (b_failed (bucket_of pd d));
    py_str (b_error (bucket_of pd d)) ].

Definition platform_rows (ps : dict platform_data) : list row :=
  flat_map (fun p => map (platform_row (fst p) (snd p)) [single; stack]) ps.

Definition section_rows_of (platform : string) (d : device) (secs : dict Z)
  : list row :=
  flat_map (fun sc =>
              if 0 <? snd sc
              then [[platform; device_name d; fst sc; py_str (snd sc)]]
              else [])
           secs.

Definition section_rows (ps : dict platform_data) : list row :=
  flat_map (fun p =>
              flat_map (fun d =>
                          section_rows_of (fst p) d (sections (bucket_of (snd p) d)))
                       [single; stack])
           ps.

(** The rows written by [save_build_data_to_csv]. *)
Definition csv_rows (name date : string) (bd : build_data) : list row :=
  summary_rows name date (overall bd)
  ++ [ ["PLATFORMS"]; ["platform"; "device_type"; "passed"; "failed"; "error"] ]
  ++ platform_rows (platforms bd)
  ++ [ [] ]
  ++ [ ["SECTIONS"]; ["platform"; "device_type"; "section"; "count"] ]
  ++ section_rows (platforms bd).

(** [build_data[key]] for the keys ['name'] and ['date']. *)
Definition required {A : Type} (o : option A) : result A :=
  match o with
  | Some a => Ok a
  | None => Raise KeyError
  end.

Definition save_build_data_to_csv (build_data : build_data)
           (cache_dir release_milestone : string) (fs : filesystem)
  : result (string * filesystem) :=
  name <- required (bd_name build_data) ;;
  let csv_file := cache_file cache_dir release_milestone name in
  date <- required (bd_date build_data) ;;
  Ok (csv_file, write_file fs csv_file (csv_rows name date build_data)).

Inductive csv_section : Type := in_summary | in_platforms | in_sections.

Definition device_of_key (k : string) : result device :=
  if (k =? "single")%string then Ok single
  else if (k =? "stack")%string then Ok stack
  else Raise KeyError.

Definition set_overall (metric : string) (v : Z) (c : counts) : counts :=
  if (metric =? "passed")%string then
    mkCounts v (failed c) (error c) (blocked c) (retest c) (skipped c)
  else if (metric =? "failed")%string then
    mkCounts (passed c) v (error c) (blocked c) (retest c) (skipped c)
  else if (metric =? "error")%string then
    mkCounts (passed c) (failed c) v (blocked c) (retest c) (skipped c)
  else if (metric =? "blocked")%string then
    mkCounts (passed c) (failed c) (error c) v (retest c) (skipped c)
  else if (metric =? "retest")%string then
    mkCounts (passed c) (failed c) (error c) (blocked c) v (skipped c)
  else if (metric =? "skipped")%string then
    mkCounts (passed c) (failed c) (error c) (blocked c) (retest c) v
  else c.

Definition is_count_metric (metric : string) : bool :=
  existsb (String.eqb metric)
          ["passed"; "failed"; "error"; "blocked"; "retest"; "skipped"].

Definition load_summary_row (r : row) (bd : build_data) : result build_data :=
  match r with
  | metric :: value :: _ =>
      if (metric =? "name")%string then
        Ok (mkBuild (Some value) (bd_date bd) (overall bd) (platforms bd))
      else if (metric =? "date")%string then
        Ok (mkBuild (bd_name bd) (Some value) (overall bd) (platforms bd))
      else if is_count_metric metric then
        v <- py_int value ;;
        Ok (with_overall bd (set_overall metric v (overall bd)))
      else Ok bd
  | _ => Raise IndexError
  end.

(** One assignment to a field of
    [build_data['platforms'][platform][device_type]]. *)
Definition assign_bucket (platform device_type : string) (f : bucket -> bucket)
           (bd : build_data) : result build_data :=
  d <- device_of_key device_type ;;
  Ok (with_platforms bd (update_bucket platform d f (platforms bd))).

(** The same with the right-hand side [int(value)], which is evaluated
    first. *)
Definition assign_int (platform device_type value : string)
           (f : Z -> bucket -> bucket) (bd : build_data) : result build_data :=
  v <- py_int value ;;
  assign_bucket platform device_type (f v) bd.

Definition set_passed (v : Z) (b : bucket) : bucket :=
  mkBucket v (b_failed b) (b_error b) (sections b).
Definition set_failed (v : Z) (b : bucket) : bucket :=
  mkBucket (b_passed b) v (b_error b) (sections b).
Definition set_error (v : Z) (b : bucket) : bucket :=
  mkBucket (b_passed b) (b_failed b) v (sections b).
Definition set_section (label : string) (v : Z) (b : bucket) : bucket :=
  mkBucket (b_passed b) (b_failed b) (b_error b) (dict_set label v (sections b)).

Definition load_platform_row (r : row) (bd : build_data) : result build_data :=
  match r with
  | [platform; device_type; passed; failed; error] =>   (* new format *)
      bd1 <- assign_int platform device_type passed set_passed bd ;;
      bd2 <- assign_int platform device_type failed set_failed bd1 ;;
      assign_int platform device_type error set_error bd2
  | [platform; device_type; passed; failed] =>          (* old format *)
      bd1 <- assign_int platform device_type passed set_passed bd ;;
      bd2 <- assign_int platform device_type failed set_failed bd1 ;;
      assign_bucket platform device_type (set_error 0) bd2
  | _ => Ok bd
  end.

Definition load_section_row (r : row) (bd : build_data) : result build_data :=
  match r with
  | [platform; device_type; section; count] =>
      assign_int platform device_type count (set_section section) bd
  | _ => Raise ValueError
  end.

Definition header_of (cell : string) : option csv_section :=
  if (cell =? "SUMMARY")%string then Some in_summary
  else if (cell =? "PLATFORMS")%string then Some in_platforms
  else if (cell =? "SECTIONS")%string then Some in_sections
  else None.

(** The [for row in reader] loop; [current_section] is [None] before the
    first header. *)
Fixpoint load_rows (rows : list row) (current_section : option csv_section)
         (bd : build_data) : result build_data :=
  match rows with
  | [] => Ok bd
  | [] :: rest => load_rows rest current_section bd
  | (cell :: cells) :: rest =>
      match header_of cell with
      | Some sec =>
          match rest with
          | [] => Raise StopIteration            (* next(reader) *)
          | _ :: rest' => load_rows rest' (Some sec) bd
          end
      | None =>
          match current_section with
          | Some in_summary =>
              bd' <- load_summary_row (cell :: cells) bd ;;
              load_rows rest current_section bd'
          | Some in_platforms =>
              bd' <- load_platform_row (cell :: cells) bd ;;
              load_rows rest current_section bd'
          | Some in_sections =>
              bd' <- load_section_row (cell :: cells) bd ;;
              load_rows rest current_section bd'
          | None => load_rows rest current_section bd
          end
      end
  end.

(** The record [load_build_data_from_csv] starts from. *)
Definition blank_build_data : build_data := mkBuild None None zero_counts [].

Definition load_build_data_from_csv (csv_file : string) (fs : filesystem)
  : result build_data :=
  match fs csv_file with
  | None => Raise FileNotFoundError
  | Some rows => load_rows rows None blank_build_data
  end.

(** A build milestone, as far as the cache looks at it. *)
Record milestone : Type := mkMilestone { ms_id : Z; ms_name : string }.

Fixpoint check_cached_builds (cache_dir release_milestone : string)
         (build_milestones : list milestone) (fs : filesystem)
  : list milestone * list milestone :=
  match build_milestones with
  | [] => ([], [])
  | build_ms :: rest =>
      let (cached_builds, uncached_builds) :=
        check_cached_builds cache_dir release_milestone rest fs in
      match fs (cache_file cache_dir release_milestone (ms_name build_ms)) with
      | Some _ => (build_ms :: cached_builds, uncached_builds)
      | None => (cached_builds, build_ms :: uncached_builds)
      end
  end.

(** ** Percentages *)




(** ** Accumulation of runs into a build record *)

(** The counts read from [get_run]: [passed_count], [failed_count],
    [blocked_count], [retest_count], [untested_count],
    [custom_status1_count] (skip) and [custom_status2_count] (error). *)
Record run_counts : Type := mkRunCounts {
  passed_count : Z;
  failed_count : Z;
  blocked_count : Z;
  retest_count : Z;
  untested_count : Z;
  custom_status1_count : Z;
  custom_status2_count : Z
}.

(** How the three lookups of the result-detail tier (test to case, case to
    section, section to name) end: with the failures counted by section
    name, with no failure mapped, or with an exception. *)
Inductive mapping_outcome : Type :=
| sections_found (section_counts : dict Z)
| sections_not_found
| mapping_raised (e : exn).

(** One run of a plan entry, with what the API answers about it. *)
Record run : Type := mkRun {
  platform : string;                  (* extract_platform(run_name) *)
  device_type : option device;        (* categorize_device(run_name);
                                         [None] is ['unknown'] *)
  suite_id : option Z;                (* run.get('suite_id') *)
  run_details : result run_counts;    (* api.get_run(run_id) *)
  results : list json;                (* api.get_results_for_run(run_id) *)
  mapping : mapping_outcome;
  suite_sections : result json        (* api.get_sections(project_id, suite_id) *)
}.

Inductive metric : Type :=
| m_passed | m_failed | m_error | m_blocked | m_retest | m_skipped.

(** The statements that change the build record:
    [build_data['overall'][m] += n],
    [build_data['platforms'][p][d][m] += n] and
    [build_data['platforms'][p][d]['sections'][label] += n]. *)
Inductive update : Type :=
| AddOverall (m : metric) (n : Z)
| AddBucket (p : string) (d : device) (m : metric) (n : Z)
| AddSection (p : string) (d : device) (label : string) (n : Z).

Definition get_count (m : metric) (c : counts) : Z :=
  match m with
  | m_passed => passed c
  | m_failed => failed c
  | m_error => error c
  | m_blocked => blocked c
  | m_retest => retest c
  | m_skipped => skipped c
  end.

Definition add_count (m : metric) (n : Z) (c : counts) : counts :=
  match m with
  | m_passed => mkCounts (passed c + n) (failed c) (error c) (blocked c) (retest c) (skipped c)
  | m_failed => mkCounts (passed c) (failed c + n) (error c) (blocked c) (retest c) (skipped c)
  | m_error => mkCounts (passed c) (failed c) (error c + n) (blocked c) (retest c) (skipped c)
  | m_blocked => mkCounts (passed c) (failed c) (error c) (blocked c + n) (retest c) (skipped c)
  | m_retest => mkCounts (passed c) (failed c) (error c) (blocked c) (retest c + n) (skipped c)
  | m_skipped => mkCounts (passed c) (failed c) (error c) (blocked c) (retest c) (skipped c + n)
  end.

(** The counters of a bucket; a bucket has none for the other statuses. *)
Definition bucket_count (m : metric) (b : bucket) : Z :=
  match m with
  | m_passed => b_passed b
  | m_failed => b_failed b
  | m_error => b_error b
  | _ => 0
  end.

Definition add_bucket (m : metric) (n : Z) (b : bucket) : bucket :=
  match m with
  | m_passed => set_passed (b_passed b + n) b
  | m_failed => set_failed (b_failed b + n) b
  | m_error => set_error (b_error b + n) b
  | _ => b
  end.

(** [sections[label] += n] on a [defaultdict(int)]. *)
Definition add_section (label : string) (n : Z) (b : bucket) : bucket :=
  set_section label (dict_get_default label 0 (sections b) + n) b.

Definition apply_update (bd : build_data) (u : update) : build_data :=
  match u with
  | AddOverall m n => with_overall bd (add_count m n (overall bd))
  | AddBucket p d m n =>
      with_platforms bd (update_bucket p d (add_bucket m n) (platforms bd))
  | AddSection p d label n =>
      with_platforms bd (update_bucket p d (add_section label n) (platforms bd))
  end.

Definition exec (us : list update) (bd : build_data) : build_data :=
  fold_left apply_update us bd.

(** [status == n] for a decoded value: [True] and [False] compare as 1
    and 0. *)
Definition eq_int (status : json) (n : Z) : bool :=
  match status with
  | JNum k => k =? n
  | JBool b => (if b then 1 else 0) =? n
  | _ => false
  end.

(** One turn of the loop that fills [build_data_temp]. *)
Definition tally (temp : counts) (result : json) : counts :=
  match result with
  | JDict fields =>
      let status := dict_get_default "status_id" (JNum 0) fields in
      if eq_int status 1 then add_count m_passed 1 temp
      else if eq_int status 5 then add_count m_failed 1 temp
      else if eq_int status 6 then add_count m_error 1 temp
      else if eq_int status 7 then add_count m_skipped 1 temp
      else if eq_int status 2 then add_count m_blocked 1 temp
      else if eq_int status 4 then add_count m_retest 1 temp
      else if eq_int status 3 then add_count m_skipped 1 temp
      else temp
  | _ => temp
  end.

Definition count_results (results : list json) : counts :=
  fold_left tally results zero_counts.

(** Truth value of a decoded value. *)
Definition truthy (j : json) : bool :=
  match j with
  | JNull => false
  | JBool b => b
  | JNum n => negb (n =? 0)
  | JStr s => negb (s =? "")%string
  | JList l => match l with [] => false | _ => true end
  | JDict f => match f with [] => false | _ => true end
  end.

(** The names kept by
    [[s['name'] for s in sections if isinstance(s, dict) and s.get('name')]].
    TestRail names a section by a string; a name of another type is taken
    as missing. *)
Definition named (s : json) : option string :=
  match s with
  | JDict fields =>
      match dict_get "name" fields with
      | Some (JStr name) => if (name =? "")%string then None else Some name
      | _ => None
      end
  | _ => None
  end.

Fixpoint section_names_of (sections : list json) : list string :=
  match sections with
  | [] => []
  | s :: rest =>
      match named s with
      | Some name => name :: section_names_of rest
      | None => section_names_of rest
      end
  end.

(** The loop [for i, section_name in enumerate(section_names[:5])], from
    index [i]. *)
Fixpoint estimated_from (i : Z) (failures_per_section remainder : Z)
         (names : list string) : list (string * Z) :=
  match names with
  | [] => []
  | section_name :: rest =>
      let count := failures_per_section + (if i <? remainder then 1 else 0) in
      (if 0 <? count then [((section_name ++ " (estimated)")%string, count)]
       else [])
      ++ estimated_from (i + 1) failures_per_section remainder rest
  end.

(** The labels and counts added by the degraded estimate for [total]
    failures and errors. *)
Definition estimate (total : Z) (section_names : list string)
  : list (string * Z) :=
  let failures_per_section := total / len section_names in
  let remainder := total mod len section_names in
  estimated_from 0 failures_per_section remainder (firstn 5 section_names).

Definition has_suite (r : run) : bool :=
  match suite_id r with
  | Some n => negb (n =? 0)
  | None => false
  end.

(** [platform != 'Unknown' and device_type in ['single', 'stack']]. *)
Definition classified (r : run) : option device :=
  if (platform r =? "Unknown")%string then None else device_type r.

Definition add_sections (p : string) (d : device) (l : list (string * Z))
  : list update :=
  map (fun sc => AddSection p d (fst sc) (snd sc)) l.

(** Section attribution of the summary-only tier, for a run in a bucket and
    with [total = failed + error > 0]. *)
Definition summary_sections (fetch_sections : bool) (r : run) (d : device)
           (total : Z) : list update :=
  let one label := [AddSection (platform r) d label total] in
  if fetch_sections then
    if has_suite r then
      match suite_sections r with
      | Raise _ => one "Summary data - section details not available"
      | Ok sections =>
          if truthy sections then
            match sections with
            | JList items =>
                let section_names := section_names_of items in
                if 0 <? len section_names then
                  add_sections (platform r) d (estimate total section_names)
                else one "Summary data - no valid sections found"
            | JStr _ | JDict _ =>      (* iterated, but holds no dict *)
                one "Summary data - no valid sections found"
            | _ =>                     (* len() raises *)
                one "Summary data - section details not available"
            end
          else one "Summary data - no sections found"
      end
    else one "Summary data - no suite information"
  else one "Summary data - details not available".

(** Section attribution of the result-detail tier, same conditions. *)
Definition detail_sections (fetch_sections : bool) (r : run) (d : device)
           (total : Z) : list update :=
  let one label := [AddSection (platform r) d label total] in
  if fetch_sections then
    if has_suite r then
      match mapping r with
      | sections_found section_counts =>
          add_sections (platform r) d section_counts
      | sections_not_found => one "Failed to map sections"
      | mapping_raised e =>
          one ("Mapping Error: " ++ substring 0 50 (exn_message e))%string
      end
    else one "No Suite ID"
  else one "Section details not fetched".

(** The updates of a run whose counts come from its results. *)
Definition detail_updates (fetch_sections : bool) (r : run) (temp : counts)
  : list update :=
  [ AddOverall m_passed (passed temp);
    AddOverall m_failed (failed temp);
    AddOverall m_error (error temp);
    AddOverall m_blocked (blocked temp);
    AddOverall m_retest (retest temp);
    AddOverall m_skipped (skipped temp) ]
  ++ match classified r with
     | Some d =>
         [ AddBucket (platform r) d m_passed (passed temp);
           AddBucket (platform r) d m_failed (failed temp);
           AddBucket (platform r) d m_error (error temp) ]
         ++ (if 0 <? failed temp + error temp
             then detail_sections fetch_sections r d (failed temp + error temp)
             else [])
     | None => []
     end.

(** The updates of a run whose counts are the summary of [get_run]. *)
Definition summary_updates (fetch_sections : bool) (r : run) (c : run_counts)
  : list update :=
  let failed := failed_count c in
  let error := custom_status2_count c in
  [ AddOverall m_passed (passed_count c);
    AddOverall m_failed failed;
    AddOverall m_error error;
    AddOverall m_blocked (blocked_count c);
    AddOverall m_retest (retest_count c);
    AddOverall m_skipped (untested_count c + custom_status1_count c) ]
  ++ match classified r with
     | Some d =>
         [ AddBucket (platform r) d m_passed (passed_count c);
           AddBucket (platform r) d m_failed failed;
           AddBucket (platform r) d m_error error ]
         ++ (if 0 <? failed + error
             then summary_sections fetch_sections r d (failed + error)
             else [])
     | None => []
     end.

Definition test_count (c : run_counts) : Z :=
  passed_count c + failed_count c + blocked_count c + retest_count c
  + untested_count c + custom_status1_count c + custom_status2_count c.

Definition executed_count (c : run_counts) : Z :=
  passed_count c + failed_count c + blocked_count c + retest_count c
  + custom_status1_count c + custom_status2_count c.

(** [results_fetched] after the result-detail tier. *)
Definition results_fetched (force_summary_only : bool) (r : run)
           (c : run_counts) : bool :=
  if force_summary_only then false
  else if executed_count c <? 10000 then 0 <? len (results r)
  else false.

(** The statements one run executes on the build record, in order. *)
Definition run_updates (force_summary_only fetch_sections : bool) (r : run)
  : list update :=
  match run_details r with
  | Raise _ => []                      (* warning, next run *)
  | Ok c =>
      if (test_count c =? 0) || (executed_count c =? 0) then []
      else if results_fetched force_summary_only r c
      then detail_updates fetch_sections r (count_results (results r))
      else summary_updates fetch_sections r c
  end.

Definition build_updates (force_summary_only fetch_sections : bool)
           (runs : list run) : list update :=
  flat_map (run_updates force_summary_only fetch_sections) runs.

(** The record a build starts from. *)
Definition new_build_data (build_name date : string) : build_data :=
  mkBuild (Some build_name) (Some date) zero_counts [].

(** The build record after the runs of all plans of the build. *)
Definition aggregate_build (force_summary_only fetch_sections : bool)
           (build_name date : string) (runs : list run) : build_data :=
  exec (build_updates force_summary_only fetch_sections runs)
       (new_build_data build_name date).

(** Sum of a counter over all platform and topology buckets. *)
Fixpoint bucket_sum (m : metric) (ps : dict platform_data) : Z :=
  match ps with
  | [] => 0
  | (_, pd) :: ps' =>
      bucket_count m (on_single pd) + bucket_count m (on_stack pd)
      + bucket_sum m ps'
  end.

(** Sum of the counts of a list of labelled counts. *)
Fixpoint total_of (l : list (string * Z)) : Z :=
  match l with
  | [] => 0
  | (_, n) :: l' => n + total_of l'
  end.

(** ** Predicates and sample data of the statements *)

(** The HTTP call times out or fails to connect. *)
Definition transport_fails (o : http_outcome) : Prop :=
  o = Timeout \/ o = ConnectionError.

(** The server answers the results page at [offset] with the list [page],
    whatever was requested before. *)
Definition serves_page (srv : server) (base_url : string) (run_id offset : Z)
           (page : list json) : Prop :=
  forall history, exists text,
    srv history (api_url base_url (results_uri run_id offset 250))
    = Response 200 text (Some (JList page)).


(** A server that sends a first page of 250 items and then times out. *)
Definition one_page_then_timeout : server :=
  fun history _ =>
    match history with
    | [] => Response 200 "" (Some (JList (repeat (JNum 1) 250)))
    | _ => Timeout
    end.

(** A server that sends a full page of 250 items to every request. *)
Definition always_full_page : server :=
  fun _ _ => Response 200 "" (Some (JList (repeat (JNum 1) 250))).

(** A server whose calls all time out. *)
Definition always_timeout : server := fun _ _ => Timeout.

(** A server that answers the results of run 7 at the offsets 0, 250 and 500
    with pages of 250, 250 and 100 items, and any other request with an empty
    list. *)
Definition three_page_server : server :=
  fun _ url =>
    if (url =? api_url "https://testrail" (results_uri 7 0 250))%string then
      Response 200 "" (Some (JList (repeat (JNum 1) 250)))
    else if (url =? api_url "https://testrail" (results_uri 7 250 250))%string then
      Response 200 "" (Some (JList (repeat (JNum 2) 250)))
    else if (url =? api_url "https://testrail" (results_uri 7 500 250))%string then
      Response 200 "" (Some (JList (repeat (JNum 3) 100)))
    else Response 200 "" (Some (JList [])).


(** The counts a run reports are counts: none is negative. *)
Definition reports_counts (r : run) : Prop :=
  match run_details r with
  | Ok c =>
      0 <= passed_count c /\ 0 <= failed_count c /\ 0 <= blocked_count c /\
      0 <= retest_count c /\ 0 <= untested_count c /\
      0 <= custom_status1_count c /\ 0 <= custom_status2_count c
  | Raise _ => True
  end.

Definition metric_eqb (m m' : metric) : bool :=
  match m, m' with
  | m_passed, m_passed | m_failed, m_failed | m_error, m_error
  | m_blocked, m_blocked | m_retest, m_retest | m_skipped, m_skipped => true
  | _, _ => false
  end.

(** The excess of an overall count over the sum of the buckets. *)
Definition slack (m : metric) (bd : build_data) : Z :=
  get_count m (overall bd) - bucket_sum m (platforms bd).

(** What one statement adds to the excess of the count [m]. *)
Definition effect (m : metric) (u : update) : Z :=
  match u with
  | AddOverall m' n => if metric_eqb m m' then n else 0
  | AddBucket _ _ m' n =>
      match m' with
      | m_passed | m_failed | m_error => if metric_eqb m m' then - n else 0
      | _ => 0
      end
  | AddSection _ _ _ _ => 0
  end.

Fixpoint net (m : metric) (us : list update) : Z :=
  match us with
  | [] => 0
  | u :: us' => effect m u + net m us'
  end.

Definition is_section_update (u : update) : Prop :=
  match u with
  | AddSection _ _ _ _ => True
  | _ => False
  end.

(** A run of the summary-only tier: [failed] failures and [error] errors on
    a C9300 stack, in a suite whose section list is [sections]. *)
Definition summary_run (passed failed error : Z) (sections : list json) : run :=
  mkRun "C9300" (Some stack) (Some 12)
        (Ok (mkRunCounts passed failed 0 0 0 0 error))
        [] sections_not_found (Ok (JList sections)).

(** A section of a suite, as [get_sections] lists it. *)
Definition section_json (id : Z) (name : string) : json :=
  JDict [("id", JNum id); ("name", JStr name)].

Definition ten_sections : list json :=
  [ section_json 1 "s0"; section_json 2 "s1"; section_json 3 "s2";
    section_json 4 "s3"; section_json 5 "s4"; section_json 6 "s5";
    section_json 7 "s6"; section_json 8 "s7"; section_json 9 "s8";
    section_json 10 "s9" ].

(** A run on no known platform, counted from three results. *)
Definition unclassified_run : run :=
  mkRun "Unknown" None None
        (Ok (mkRunCounts 2 1 0 0 0 0 0))
        [ JDict [("status_id", JNum 1)]; JDict [("status_id", JNum 5)];
          JDict [("status_id", JNum 1)] ]
        sections_not_found (Raise (Exception "no suite")).








(** A build record with a platform named like a section header. *)
Definition header_named_build : build_data :=
  mkBuild (Some "T-202506251848") (Some "2025-06-25")
          (mkCounts 10 0 0 0 0 0)
          [ ("SECTIONS", mkPlatform (mkBucket 10 0 0 []) empty_bucket) ].



(** An empty cache. *)
Definition empty_fs : filesystem := fun _ => None.

(** [load_build_data_from_csv] on the file [save_build_data_to_csv] has just
    written. *)
Definition save_then_load (bd : build_data) (cache_dir release_milestone : string)
           (fs : filesystem) : result build_data :=
  saved <- save_build_data_to_csv bd cache_dir release_milestone fs ;;
  load_build_data_from_csv (fst saved) (snd saved).

(** ** Further predicates of the statements *)

(** The server answers the pages of [endpoint] from [offset] on with the
    lists [pages], one after the other, whatever was requested before. *)
Fixpoint serves_pages (srv : server) (base_url endpoint : string)
         (project_id offset : Z) (pages : list (list json)) : Prop :=
  match pages with
  | [] => True
  | page :: rest =>
      (forall history, exists text,
          srv history (api_url base_url (page_uri endpoint project_id offset))
          = Response 200 text (Some (JList page)))
      /\ serves_pages srv base_url endpoint project_id (offset + len page) rest
  end.

(** The URLs of the first [n] pages of [endpoint], 250 items apart. *)
Definition page_urls (base_url endpoint : string) (project_id : Z) (n : nat)
  : list string :=
  map (fun i => api_url base_url
                        (page_uri endpoint project_id (250 * Z.of_nat i)))
      (seq 0 n).

(** The server answers every request with a full page of 250 items. *)
Definition always_serves_full_pages (srv : server) : Prop :=
  forall history url, exists text page,
    srv history url = Response 200 text (Some (JList page)) /\ len page = 250.

(** The server sends no more results than the request asks for with its
    [limit] parameter. *)
Definition honours_limit (srv : server) (base_url : string) (run_id : Z)
  : Prop :=
  forall history offset current_limit text page,
    1 <= current_limit ->
    srv history (api_url base_url (results_uri run_id offset current_limit))
    = Response 200 text (Some (JList page)) ->
    len page <= current_limit.

(** The request does not bring back decoded JSON: the call times out or
    fails to connect, the status is not 200, or the text is not JSON. *)
Definition request_fails (o : http_outcome) : Prop :=
  match o with
  | Timeout | ConnectionError => True
  | Response status_code _ decoded => status_code <> 200 \/ decoded = None
  end.

(** A decoded value that is not a list. *)
Definition not_a_list (j : json) : Prop :=
  match j with
  | JList _ => False
  | _ => True
  end.

(** A server that sends one result to every request. *)
Definition one_result_per_request : server :=
  fun _ _ => Response 200 "" (Some (JList [JNum 1])).

(** A server that answers the milestone page of project 9 at offset 0 with
    250 items and every other request with an error object. *)
Definition one_page_then_error_object : server :=
  fun _ url =>
    if (url =? api_url "https://testrail" (page_uri "get_milestones" 9 0))%string
    then Response 200 "" (Some (JList (repeat (JNum 1) 250)))
    else Response 200 "" (Some (JDict [("error", JStr "denied")])).

(** A server that answers the milestone pages of project 9 at the offsets 0
    and 250 with 250 and 3 items. *)
Definition two_page_server : server :=
  fun _ url =>
    if (url =? api_url "https://testrail" (page_uri "get_milestones" 9 0))%string
    then Response 200 "" (Some (JList (repeat (JNum 1) 250)))
    else if (url =? api_url "https://testrail" (page_uri "get_milestones" 9 250))%string
    then Response 200 "" (Some (JList (repeat (JNum 2) 3)))
    else Response 200 "" (Some (JList [])).

(** The server answers the result pages of a run from [offset] on with the
    lists [pages], one after the other. *)
Fixpoint serves_result_pages (srv : server) (base_url : string)
         (run_id offset : Z) (pages : list (list json)) : Prop :=
  match pages with
  | [] => True
  | page :: rest =>
      serves_page srv base_url run_id offset page
      /\ serves_result_pages srv base_url run_id (offset + len page) rest
  end.

(** The URLs of [n] result pages from page number [k] on, 250 items
    apart. *)
Definition result_urls (base_url : string) (run_id : Z) (k n : nat)
  : list string :=
  map (fun i => api_url base_url (results_uri run_id (250 * Z.of_nat i) 250))
      (seq k n).

(** A server that answers the results of run 7 at offset 0 with 250 items
    and refuses every other request with status 500. *)
Definition one_page_then_status_500 : server :=
  fun _ url =>
    if (url =? api_url "https://testrail" (results_uri 7 0 250))%string
    then Response 200 "" (Some (JList (repeat (JNum 1) 250)))
    else Response 500 "Internal Server Error" None.

(** The build is found in the cache. *)
Definition in_cache (cache_dir release_milestone : string) (fs : filesystem)
           (build_ms : milestone) : bool :=
  match fs (cache_file cache_dir release_milestone (ms_name build_ms)) with
  | Some _ => true
  | None => false
  end.






(** ** Pass and fail percentages *)


(** ** Further quantities of the accumulation *)

(** The number of tests counted overall. *)
Definition total_counts (c : counts) : Z :=
  passed c + failed c + error c + blocked c + retest c + skipped c.

(** A result that the loop over the results counts: a dict whose
    [status_id] is one of the seven known statuses. *)
Definition has_known_status (result : json) : bool :=
  match result with
  | JDict fields =>
      let status := dict_get_default "status_id" (JNum 0) fields in
      eq_int status 1 || eq_int status 2 || eq_int status 3 || eq_int status 4
      || eq_int status 5 || eq_int status 6 || eq_int status 7
  | _ => false
  end.

(** What a list of statements adds to the sections of all buckets. *)
Fixpoint section_total (us : list update) : Z :=
  match us with
  | [] => 0
  | AddSection _ _ _ n :: us' => n + section_total us'
  | _ :: us' => section_total us'
  end.

(** A run on an MS390, single topology, counted from its results. *)
Definition detailed_run : run :=
  mkRun "MS390" (Some single) (Some 12)
        (Ok (mkRunCounts 9 9 9 9 9 9 9))
        [ JDict [("status_id", JNum 1)]; JDict [("status_id", JNum 5)];
          JDict [("status_id", JNum 3)]; JDict [("status_id", JNum 12)];
          JStr "noise" ]
        (sections_found [("Layer 2", 1)]) (Raise (Exception "unused")).

(** The run is put in a platform and topology bucket. *)
Definition is_classified (r : run) : Prop := classified r <> None.

(** Sum of the section counts of a bucket, and of all buckets. *)
Definition bucket_sections (b : bucket) : Z := total_of (sections b).

Fixpoint sections_sum (ps : dict platform_data) : Z :=
  match ps with
  | [] => 0
  | (_, pd) :: ps' =>
      bucket_sections (on_single pd) + bucket_sections (on_stack pd)
      + sections_sum ps'
  end.

(** What a statement adds to the failures and errors of the buckets that
    are not attributed to a section. *)
Definition unattributed_effect (u : update) : Z :=
  match u with
  | AddBucket _ _ m_failed n | AddBucket _ _ m_error n => n
  | AddSection _ _ _ n => - n
  | _ => 0
  end.

Fixpoint unattributed_net (us : list update) : Z :=
  match us with
  | [] => 0
  | u :: us' => unattributed_effect u + unattributed_net us'
  end.

(** The failures and errors of the buckets that no section accounts for. *)
Definition unattributed (bd : build_data) : Z :=
  bucket_sum m_failed (platforms bd) + bucket_sum m_error (platforms bd)
  - sections_sum (platforms bd).

(** ** Selection of the builds *)










(** A child milestone with a name. *)
Definition child_json (id : Z) (name : string) : json :=
  JDict [("id", JNum id); ("name", JStr name)].


(** ** Platform and device classifier *)

(** [str.upper] of one character, as code points: the small letters move
    down by 32, the sharp s U+00DF becomes ["SS"], and the micro sign U+00B5
    and the y with diaeresis U+00FF leave the range for U+039C and
    U+0178. *)
Definition upper_char (c : ascii) : list Z :=
  if is_ascii_lower c || in_range 224 246 c || in_range 248 254 c
  then [ord c - 32]
  else if ord c =? 223 then [83; 83]
  else if ord c =? 181 then [924]
  else if ord c =? 255 then [376]
  else [ord c].

(** [s.upper()], as code points. *)
Fixpoint upper (s : string) : list Z :=
  match s with
  | EmptyString => []
  | String c s' => upper_char c ++ upper s'
  end.

(** The code points of a string. *)
Fixpoint points (s : string) : list Z :=
  match s with
  | EmptyString => []
  | String c s' => ord c :: points s'
  end.

Fixpoint starts_with_points (needle hay : list Z) : bool :=
  match needle, hay with
  | [], _ => true
  | n :: needle', h :: hay' => (n =? h) && starts_with_points needle' hay'
  | _ :: _, [] => false
  end.

(** [needle in hay] on code points. *)
Fixpoint contains_points (needle hay : list Z) : bool :=
  starts_with_points needle hay ||
  match hay with
  | [] => false
  | _ :: hay' => contains_points needle hay'
  end.

(** [any(indicator in run_name_upper for indicator in indicators)]. *)
Definition any_in (indicators : list string) (run_name_upper : list Z) : bool :=
  existsb (fun indicator => contains_points (points indicator) run_name_upper)
          indicators.

(** A character of the pattern matched with [re.IGNORECASE]; [p] is a small
    ASCII letter. *)
Definition ieq (c p : ascii) : bool := Ascii.eqb (lower_char c) p.

(** [[A-Z]] with [re.IGNORECASE]. *)
Definition re_letter (c : ascii) : bool := is_ascii_upper c || is_ascii_lower c.

(** [re.match(r'Switch-[A-Z]-', run_name, re.IGNORECASE)]. *)
Definition switch_letter_prefix (run_name : string) : bool :=
  match run_name with
  | String c1 (String c2 (String c3 (String c4 (String c5 (String c6
      (String c7 (String c8 (String c9 _)))))))) =>
      ieq c1 "s" && ieq c2 "w" && ieq c3 "i" && ieq c4 "t" && ieq c5 "c"
      && ieq c6 "h" && (ord c7 =? 45) && re_letter c8 && (ord c9 =? 45)
  | _ => false
  end.

Definition stack_indicators : list string := ["STACK"; "STK"; "STACKED"].

Definition single_indicators : list string :=
  ["SINGLE"; "SNGL"; "STANDALONE"; "SWITCH-"].

Definition categorize_device (run_name : string) : string :=
  let run_name_upper := upper run_name in
  if any_in stack_indicators run_name_upper then "stack"
  else if any_in single_indicators run_name_upper then "single"
  else if switch_letter_prefix run_name then "single"
  else "unknown".

(** The list [platforms] of [extract_platform], in its order. *)
Definition known_platforms : list string :=
  [ "MS120"; "MS125"; "MS130"; "MS150"; "MS210"; "MS220"; "MS225"; "MS250";
    "MS320"; "MS350"; "MS355"; "MS390"; "MS410"; "MS420"; "MS425"; "MS450";
    "C9300"; "C9300L"; "C9300X"; "C9200"; "C9200L"; "C9200CX";
    "C9500"; "C9400"; "C9600"; "C9800";
    "C3850"; "C3650"; "C2960" ].

(** [\s] of a [str] pattern below U+0100: the blank, the controls U+0009 to
    U+000D and U+001C to U+001F, the next line U+0085 and the no-break space
    U+00A0. *)
Definition re_space (c : ascii) : bool :=
  (ord c =? 32) || in_range 9 13 c || in_range 28 31 c
  || (ord c =? 133) || (ord c =? 160).

(** The longest run of characters of a class at the head of a string, and
    the rest. *)
Fixpoint span (cls : ascii -> bool) (s : string) : string * string :=
  match s with
  | EmptyString => (EmptyString, EmptyString)
  | String c s' =>
      if cls c then let (g, rest) := span cls s' in (String c g, rest)
      else (EmptyString, s)
  end.

(** [(\d+)]: the digits at the head of the string, at least one. *)
Definition digits1 (s : string) : option string :=
  match fst (span re_digit s) with
  | EmptyString => None
  | g => Some g
  end.

(** [ms_pattern = MS[-\s]?(\d+)] with [re.IGNORECASE], anchored; the
    group. *)
Definition ms_pattern (s : string) : option string :=
  match s with
  | String c1 (String c2 rest) =>
      if ieq c1 "m" && ieq c2 "s" then
        match rest with
        | String c rest' =>
            if (ord c =? 45) || re_space c then
              match digits1 rest' with
              | Some g => Some g
              | None => digits1 rest
              end
            else digits1 rest
        | EmptyString => None
        end
      else None
  | _ => None
  end.

(** [c_pattern] with [re.IGNORECASE], anchored: the letter C, then the
    group of four digits and any number of letters of [A-Z]. *)
Definition c_pattern (s : string) : option string :=
  match s with
  | String c1 rest =>
      if ieq c1 "c" then
        match digits 4 rest with
        | Some (g, rest') => Some (g ++ fst (span re_letter rest'))%string
        | None => None
        end
      else None
  | EmptyString => None
  end.

Definition extract_platform (run_name : string) : string :=
  match find (fun platform => contains_points (points platform) (upper run_name))
             known_platforms with
  | Some platform => platform
  | None =>
      match re_search ms_pattern run_name with
      | Some g => ("MS" ++ g)%string
      | None =>
          match re_search c_pattern run_name with
          | Some g => ("C" ++ g)%string
          | None => "Unknown"
          end
      end
  end.

(** The platform names of the list that stand behind a name they begin
    with. *)
Definition shadowed_platforms : list string :=
  ["C9300L"; "C9300X"; "C9200L"; "C9200CX"].







(** ** The release milestone *)

(** [isinstance(ms, dict) and ms.get('name') == release_milestone]: the
    name is a string equal to the release. *)
Definition is_named (release_milestone : string) (ms : json) : bool :=
  match ms with
  | JDict fields =>
      match dict_get "name" fields with
      | Some (JStr s) => (s =? release_milestone)%string
      | _ => false
      end
  | _ => false
  end.

(** The dicts of [milestones] with the name of the release, in their
    order. *)
Definition matching_milestones (release_milestone : string)
           (milestones : list json) : list (dict json) :=
  flat_map (fun ms => match ms with
                      | JDict fields =>
                          if is_named release_milestone ms then [fields] else []
                      | _ => []
                      end)
           milestones.

(** The sort key [len(x.get('milestones', []))]: the length of a list, of a
    string or of a dict (a decoded object holds each key once); [len]
    raises [TypeError] on [None], a number or a boolean. *)
Definition child_count (x : dict json) : result Z :=
  match dict_get_default "milestones" (JList []) x with
  | JList items => Ok (len items)
  | JStr s => Ok (Z.of_nat (String.length s))
  | JDict fields => Ok (len fields)
  | JNull | JBool _ | JNum _ => Raise TypeError
  end.

(** The keys of a sort are computed for all items before any is moved. *)
Fixpoint with_child_counts (l : list (dict json))
  : result (list (dict json * Z)) :=
  match l with
  | [] => Ok []
  | x :: rest =>
      n <- child_count x ;;
      counted <- with_child_counts rest ;;
      Ok ((x, n) :: counted)
  end.

(** [sort(key=..., reverse=True)]: greatest key first, and stable: items of
    one key keep their order. *)
Fixpoint insert_by_count {A : Type} (x : A * Z) (l : list (A * Z))
  : list (A * Z) :=
  match l with
  | [] => [x]
  | y :: l' =>
      if snd x <? snd y then y :: insert_by_count x l' else x :: y :: l'
  end.

Definition sort_by_count {A : Type} (l : list (A * Z)) : list (A * Z) :=
  fold_right insert_by_count [] l.

(** The milestone of the release: [None] when no milestone has its name,
    the only one when there is one, and the first after the sort when
    there are more. *)
Definition find_release_milestone (release_milestone : string)
           (milestones : list json) : result (option (dict json)) :=
  match matching_milestones release_milestone milestones with
  | [] => Ok None
  | [release_ms] => Ok (Some release_ms)
  | matching =>
      counted <- with_child_counts matching ;;
      Ok (option_map fst (hd_error (sort_by_count counted)))
  end.

(** A release that was created twice: first without children, then with
    two builds. *)
Definition release_twice : list json :=
  [ JDict [("id", JNum 1); ("name", JStr "switch-18")];
    JDict [("id", JNum 2); ("name", JStr "switch-17"); ("milestones", JNull)];
    JDict [("id", JNum 3); ("name", JStr "switch-18");
           ("milestones",
            JList [child_json 31 "switch-18-202506182240";
                   child_json 32 "switch-18-202506192240"])] ].

(** * Properties *)

(** ** Numerals *)


(** ** Cache key *)

Lemma map_string_length (f : ascii -> ascii) (s : string) :
  String.length (map_string f s) = String.length s.
Proof. induction s; simpl; congruence. Qed.

Lemma map_string_get (f : ascii -> ascii) (s : string) :
  forall (i : nat) (c : ascii),
    String.get i s = Some c -> String.get i (map_string f s) = Some (f c).
Proof.
  induction s as [|a s IH]; intros i c; simpl.
  - discriminate.
  - destruct i; [intros [= ->]; reflexivity | apply IH].
Qed.

Lemma forall_ascii (P : ascii -> bool) :
  forallb (fun n => P (ascii_of_nat n)) (seq 0 256) = true ->
  forall c, P c = true.
Proof.
  intros H c. rewrite forallb_forall in H.
  rewrite <- (ascii_nat_embedding c). apply H.
  apply in_seq. pose proof (nat_ascii_bounded c). lia.
Qed.

(** On every code point [safe_char] keeps the characters of [A-Za-z0-9_-]
    and the alphanumerics above U+007F, and turns the others into an
    underscore. *)
Lemma safe_char_cases (c : ascii) :
  safe_char c =
  if in_spec_set c then c
  else if (128 <=? ord c) && is_alnum c then c
  else "_"%char.
Proof.
  revert c.
  assert (H : forall c,
             Ascii.eqb (safe_char c)
               (if in_spec_set c then c
                else if (128 <=? ord c) && is_alnum c then c
                else "_"%char) = true).
  { apply forall_ascii. vm_compute. reflexivity. }
  intros c. apply Ascii.eqb_eq, H.
Qed.

(** C5 (as the code has it).  The sanitized name has the length of the
    build name; a character of [A-Za-z0-9_-] is left as it is, an
    alphanumeric character above U+007F (a word character of [\w]) is left
    as it is too, and every other character becomes an underscore.
    [save_build_data_to_csv] writes to, and [check_cached_builds] looks at,
    the file named by this sanitized name. *)
Theorem safe_name_characters :
  (forall name : string,
      String.length (safe_name name) = String.length name /\
      forall (i : nat) (c : ascii),
        String.get i name = Some c ->
        String.get i (safe_name name) =
        Some (if in_spec_set c then c
              else if (128 <=? ord c) && is_alnum c then c
              else "_"%char)) /\
  (forall (name date : string) (c : counts) (ps : dict platform_data)
          (cache_dir release_milestone : string) (fs : filesystem),
      exists fs',
        save_build_data_to_csv (mkBuild (Some name) (Some date) c ps)
                               cache_dir release_milestone fs
        = Ok (path_join (path_join cache_dir release_milestone)
                        (safe_name name ++ ".csv")%string, fs')) /\
  (forall (cache_dir release_milestone : string) (build_ms : milestone)
          (fs : filesystem),
      check_cached_builds cache_dir release_milestone [build_ms] fs =
      match fs (path_join (path_join cache_dir release_milestone)
                          (safe_name (ms_name build_ms) ++ ".csv")%string) with
      | Some _ => ([build_ms], [])
      | None => ([], [build_ms])
      end).
Proof.
  split; [| split].
  - intros name. split.
    + apply map_string_length.
    + intros i c H. unfold safe_name.
      rewrite (map_string_get _ _ _ _ H). now rewrite safe_char_cases.
  - intros. eexists. reflexivity.
  - intros. reflexivity.
Qed.

(** The blank of ["a b/c"] becomes an underscore, its [b] stays. *)
Lemma safe_name_characters_witness :
  String.get 1 (safe_name "a b/c") = Some "_"%char /\
  String.get 2 (safe_name "a b/c") = Some "b"%char.
Proof.
  split.
  - apply (proj2 (proj1 safe_name_characters "a b/c") 1%nat " "%char).
    reflexivity.
  - apply (proj2 (proj1 safe_name_characters "a b/c") 2%nat "b"%char).
    reflexivity.
Defined.

(** C5, the statement of the specification fails: the build name made of the single
    character U+00E9 (e with acute accent) lies outside [A-Za-z0-9_-], yet
    the sanitized name is the build name itself, not an underscore. *)
Lemma safe_name_keeps_accented_letter :
  let c := ascii_of_nat 233 in
  in_spec_set c = false /\
  safe_name (String c EmptyString) = String c EmptyString /\
  safe_name (String c EmptyString) <> "_".
Proof.
  vm_compute. repeat split; discriminate.
Qed.

(** ** Naming and date helpers *)

Lemma datetime_valid (y m d : Z) (dt : date) :
  datetime y m d = Ok dt -> valid_date dt.
Proof.
  unfold datetime.
  destruct (_ && _) eqn:E; [| discriminate].
  intros [= <-]. unfold valid_date; simpl.
  repeat (apply andb_true_iff in E; destruct E as [E ?]).
  lia.
Qed.

Lemma datetime_of_groups_valid (y m d : string) (dt : date) :
  datetime_of_groups y m d = Ok dt -> valid_date dt.
Proof.
  unfold datetime_of_groups, bind.
  destruct (py_int y); [| discriminate].
  destruct (py_int m); [| discriminate].
  destruct (py_int d); [| discriminate].
  apply datetime_valid.
Qed.

(** What a [try: return ... except: pass] step yields when the rest yields
    a checked value. *)
Lemma try_return_checked (body : result date) (rest : result (option date)) :
  (rest = Ok None \/ exists dt, rest = Ok (Some dt) /\ valid_date dt) ->
  (forall dt, body = Ok dt -> valid_date dt) ->
  try_return body rest = Ok None \/
  exists dt, try_return body rest = Ok (Some dt) /\ valid_date dt.
Proof.
  intros Hrest Hbody. destruct body as [dt|e]; simpl.
  - right. exists dt. split; [reflexivity | now apply Hbody].
  - exact Hrest.
Qed.

(** C9.  For every string [parse_build_date] returns (it raises nothing):
    either [None] or a date of the calendar.  A candidate whose month or day
    does not exist raises in [datetime], is caught, and is never returned. *)
Theorem parse_build_date_total (milestone_name : string) :
  parse_build_date milestone_name = Ok None \/
  exists dt, parse_build_date milestone_name = Ok (Some dt) /\ valid_date dt.
Proof.
  unfold parse_build_date.
  assert (H3 : @Ok (option date) None = Ok None \/
               exists dt, @Ok (option date) None = Ok (Some dt) /\ valid_date dt)
    by (left; reflexivity).
  set (after2 := match re_search date_pattern3 milestone_name with
                 | Some (y, m, d) => try_return (datetime_of_groups y m d) (Ok None)
                 | None => Ok None
                 end).
  assert (H2 : after2 = Ok None \/
               exists dt, after2 = Ok (Some dt) /\ valid_date dt).
  { subst after2.
    destruct (re_search date_pattern3 milestone_name) as [[[y m] d]|]; [| exact H3].
    apply try_return_checked; [exact H3 | apply datetime_of_groups_valid]. }
  set (after1 := match re_search date_pattern2 milestone_name with
                 | Some (y, m, d, _) => try_return (datetime_of_groups y m d) after2
                 | None => after2
                 end).
  assert (H1 : after1 = Ok None \/
               exists dt, after1 = Ok (Some dt) /\ valid_date dt).
  { subst after1.
    destruct (re_search date_pattern2 milestone_name) as [[[[y m] d] t]|]; [| exact H2].
    apply try_return_checked; [exact H2 | apply datetime_of_groups_valid]. }
  destruct (re_search date_pattern1 milestone_name) as [[[[y m] d] t]|]; [| exact H1].
  apply try_return_checked; [exact H1 | apply datetime_of_groups_valid].
Qed.

(** The identifiers of the module's comments, and candidates that are not
    days of the calendar. *)
Example parse_build_date_examples :
  parse_build_date "cs-17-2-202506022349-G9b920b73c087-rel-bricklaying"
  = Ok (Some (mkDate 2025 6 2)) /\
  parse_build_date "Cisco_IOS_XE_Software_BLD_V1718_THROTTLE_LATEST_20250507_010754"
  = Ok (Some (mkDate 2025 5 7)) /\
  parse_build_date "T-202506251848-G61bcac03e7e2-jenkins-anklet"
  = Ok (Some (mkDate 2025 6 25)) /\
  parse_build_date "build-2025-13-45" = Ok None /\
  parse_build_date "build-20250229" = Ok None /\
  parse_build_date "build-2024-02-29" = Ok (Some (mkDate 2024 2 29)) /\
  parse_build_date "no date here" = Ok None.
Proof.
  repeat split; vm_compute; reflexivity.
Qed.

Lemma has_build_date_iff (s : string) :
  has_build_date s = Ok true <-> exists dt, parse_build_date s = Ok (Some dt).
Proof.
  unfold has_build_date, bind.
  destruct (parse_build_date s) as [[dt|]|e]; split;
    try discriminate; try (intros [dt' H]; discriminate).
  - intros _. now exists dt.
  - reflexivity.
Qed.

Lemma has_build_date_returns (s : string) : exists b, has_build_date s = Ok b.
Proof.
  unfold has_build_date, bind.
  destruct (parse_build_date_total s) as [-> | [dt [-> _]]]; eexists; reflexivity.
Qed.

Lemma and_then_true (a : bool) (b : result bool) :
  and_then a b = Ok true <-> a = true /\ b = Ok true.
Proof.
  destruct a; simpl; split; try tauto.
  - discriminate.
  - intros [H _]; discriminate.
Qed.

(** C7.  For the family [CS-1] the answer is true exactly when the
    lower-cased identifier starts with [cs-17-] and the identifier has a
    parsable date; for [switch-17] and [switch-18] exactly when it starts
    with the family followed by a hyphen and has a parsable date; a boolean
    is returned in every case.  The two identifiers of the specification
    give true and false. *)
Theorem matches_release_pattern_families :
  (forall s : string,
      (exists b, matches_release_pattern s "CS-1" = Ok b) /\
      (matches_release_pattern s "CS-1" = Ok true <->
       startswith (lower s) "cs-17-" = true /\
       exists dt, parse_build_date s = Ok (Some dt))) /\
  (forall s : string,
      (exists b, matches_release_pattern s "switch-17" = Ok b) /\
      (matches_release_pattern s "switch-17" = Ok true <->
       startswith (lower s) "switch-17-" = true /\
       exists dt, parse_build_date s = Ok (Some dt))) /\
  (forall s : string,
      (exists b, matches_release_pattern s "switch-18" = Ok b) /\
      (matches_release_pattern s "switch-18" = Ok true <->
       startswith (lower s) "switch-18-" = true /\
       exists dt, parse_build_date s = Ok (Some dt))) /\
  matches_release_pattern "cs-17-2-202506022349-..." "CS-1" = Ok true /\
  matches_release_pattern "cs-17-2-202506022349-G9b920b73c087-rel-bricklaying"
                          "CS-1" = Ok true /\
  matches_release_pattern "switch-19-202506182240-..." "switch-18" = Ok false /\
  matches_release_pattern "switch-19-202506182240-G0100853be368-jenkins-banquette"
                          "switch-18" = Ok false.
Proof.
  assert (Hgen : forall (s p : string),
             (exists b, and_then (startswith (lower s) p) (has_build_date s) = Ok b) /\
             (and_then (startswith (lower s) p) (has_build_date s) = Ok true <->
              startswith (lower s) p = true /\
              exists dt, parse_build_date s = Ok (Some dt))).
  { intros s p. split.
    - destruct (startswith (lower s) p); simpl.
      + apply has_build_date_returns.
      + now exists false.
    - rewrite and_then_true, has_build_date_iff. reflexivity. }
  split; [| split; [| split]].
  - intros s. exact (Hgen s "cs-17-").
  - intros s. exact (Hgen s "switch-17-").
  - intros s. exact (Hgen s "switch-18-").
  - repeat split; vm_compute; reflexivity.
Qed.

(** ** Percentages *)







(** ** Remote data client *)

Section ClientFacts.

Variable base_url : string.
Variable srv : server.

Lemma send_get_logs (uri : string) (w : world) :
  snd (send_get base_url srv uri w)
  = mkWorld (requests w ++ [api_url base_url uri]) (shown w).
Proof.
  unfold send_get. cbv zeta.
  destruct (srv (requests w) (api_url base_url uri)) as [| |code text [j|]];
    try reflexivity; destruct (negb (code =? 200)); reflexivity.
Qed.

Lemma send_get_transport (uri : string) (w : world) :
  transport_fails (srv (requests w) (api_url base_url uri)) ->
  exists msg,
    send_get base_url srv uri w
    = (Raise (Exception msg),
       mkWorld (requests w ++ [api_url base_url uri]) (shown w)).
Proof.
  unfold send_get. cbv zeta.
  intros [-> | ->]; eexists; reflexivity.
Qed.

Lemma send_get_ok (uri : string) (w w1 : world) (j : json) :
  send_get base_url srv uri w = (Ok j, w1) ->
  exists text,
    srv (requests w) (api_url base_url uri) = Response 200 text (Some j).
Proof.
  unfold send_get. cbv zeta.
  destruct (srv (requests w) (api_url base_url uri)) as [| |code text [j'|]];
    try discriminate.
  - destruct (code =? 200) eqn:E; simpl; [| discriminate].
    apply Z.eqb_eq in E. subst code. intros [= -> _]. now exists text.
  - destruct (negb (code =? 200)); discriminate.
Qed.

Lemma get_pages_unfold (fuel : nat) (endpoint : string) (project_id : Z)
      (collected : list json) (offset : Z) (w : world) :
  get_pages base_url srv (S fuel) endpoint project_id collected offset w =
  match send_get base_url srv (page_uri endpoint project_id offset) w with
  | (Raise _, w1) => Some (Ok (JList collected), w1)
  | (Ok (JList response), w1) =>
      match response with
      | [] => Some (Ok (JList collected), w1)
      | _ :: _ =>
          if len response <? 250
          then Some (Ok (JList (collected ++ response)), w1)
          else get_pages base_url srv fuel endpoint project_id
                         (collected ++ response) (offset + len response) w1
      end
  | (Ok response, w1) => Some (Ok response, w1)
  end.
Proof. reflexivity. Qed.

(** The paginated fetches return; they never raise. *)
Lemma get_pages_never_raises (fuel : nat) (endpoint : string) (project_id : Z) :
  forall (collected : list json) (offset : Z) (w w' : world) (e : exn),
    get_pages base_url srv fuel endpoint project_id collected offset w
    <> Some (Raise e, w').
Proof.
  induction fuel as [|fuel IH]; intros collected offset w w' e.
  - discriminate.
  - rewrite get_pages_unfold.
    destruct (send_get base_url srv (page_uri endpoint project_id offset) w)
      as [[j|e0] w1]; [| discriminate].
    destruct j as [| | | |response|]; try discriminate.
    destruct response as [|x response]; [discriminate |].
    destruct (len (x :: response) <? 250); [discriminate | apply IH].
Qed.

Lemma get_results_loop_unfold (fuel : nat) (run_id : Z) (results : list json)
      (offset : Z) (w : world) :
  get_results_loop base_url srv (S fuel) run_id None results offset w =
  match send_get base_url srv (results_uri run_id offset 250) w with
  | (Raise e, w1) =>
      Some (Ok results,
            st_show (UiError ("Error fetching results for run "
                              ++ py_str run_id ++ ": " ++ exn_message e)) w1)
  | (Ok (JList (b :: bs)), w1) =>
      if len (b :: bs) <? 250 then Some (Ok (results ++ b :: bs), w1)
      else
        let offset' := offset + len (b :: bs) in
        let w2 :=
          if (0 <? offset') && (offset' mod 1000 =? 0) then
            st_show (UiText ("    Fetched " ++ py_str offset'
                             ++ " results so far...")) w1
          else w1 in
        if 10000 <? len (results ++ b :: bs) then
          Some (Ok (results ++ b :: bs),
                st_show (UiWarning
                  ("Large number of results ("
                   ++ py_str (len (results ++ b :: bs)) ++ ") for run "
                   ++ py_str run_id
                   ++ ". Stopping to prevent timeout.")) w2)
        else get_results_loop base_url srv fuel run_id None
                              (results ++ b :: bs) offset' w2
  | (Ok _, w1) => Some (Ok results, w1)
  end.
Proof. reflexivity. Qed.

Lemma len_app {A : Type} (l1 l2 : list A) : len (l1 ++ l2) = len l1 + len l2.
Proof. unfold len. rewrite length_app. lia. Qed.


Lemma send_get_page (uri text : string) (w : world) (j : json) :
  srv (requests w) (api_url base_url uri) = Response 200 text (Some j) ->
  send_get base_url srv uri w
  = (Ok j, mkWorld (requests w ++ [api_url base_url uri]) (shown w)).
Proof.
  unfold send_get. cbv zeta. now intros ->.
Qed.

(** A turn of the loop on a full page that leaves the total at or below
    the ceiling and the offset off a multiple of 1000. *)
Lemma get_results_loop_full_page (fuel : nat) (run_id : Z)
      (results page : list json) (offset : Z) (w : world) (text : string) :
  srv (requests w) (api_url base_url (results_uri run_id offset 250))
  = Response 200 text (Some (JList page)) ->
  len page = 250 ->
  len results + 250 <= 10000 ->
  (offset + 250) mod 1000 <> 0 ->
  get_results_loop base_url srv (S fuel) run_id None results offset w
  = get_results_loop base_url srv fuel run_id None (results ++ page)
      (offset + 250)
      (mkWorld (requests w
                ++ [api_url base_url (results_uri run_id offset 250)])
               (shown w)).
Proof.
  intros Hsrv Hlen Hcap Hmod.
  rewrite get_results_loop_unfold, (send_get_page _ _ _ _ Hsrv).
  destruct page as [|b bs]; [discriminate |].
  rewrite Hlen. change (250 <? 250) with false. cbv iota zeta.
  apply Z.eqb_neq in Hmod. rewrite Hmod, andb_false_r.
  assert (E : (10000 <? len (results ++ b :: bs)) = false)
    by (apply Z.ltb_ge; rewrite len_app; lia).
  now rewrite E.
Qed.

(** A turn of the loop on a page shorter than the page size ends it. *)
Lemma get_results_loop_short_page (fuel : nat) (run_id : Z)
      (results page : list json) (offset : Z) (w : world) (text : string) :
  srv (requests w) (api_url base_url (results_uri run_id offset 250))
  = Response 200 text (Some (JList page)) ->
  0 < len page < 250 ->
  get_results_loop base_url srv (S fuel) run_id None results offset w
  = Some (Ok (results ++ page),
          mkWorld (requests w
                   ++ [api_url base_url (results_uri run_id offset 250)])
                  (shown w)).
Proof.
  intros Hsrv Hlen.
  rewrite get_results_loop_unfold, (send_get_page _ _ _ _ Hsrv).
  destruct page as [|b bs]; [unfold len in Hlen; simpl in Hlen; lia |].
  assert (E : (len (b :: bs) <? 250) = true) by (apply Z.ltb_lt; lia).
  now rewrite E.
Qed.

End ClientFacts.

(** C3 (as the code has it).  When the HTTP call of a request times out or
    fails to connect, [send_get] sends that one request, sends it once, and
    raises an exception to its caller.  The paginated [get_milestones] and
    [get_plans] catch the exception of a page request: they stop, send
    nothing more and return the items collected so far; they never raise. *)
Theorem transport_failure_handling (base_url : string) (srv : server) :
  (forall (uri : string) (w : world),
      transport_fails (srv (requests w) (api_url base_url uri)) ->
      exists msg,
        send_get base_url srv uri w
        = (Raise (Exception msg),
           mkWorld (requests w ++ [api_url base_url uri]) (shown w))) /\
  (forall (fuel : nat) (endpoint : string) (project_id : Z)
          (collected : list json) (offset : Z) (w : world),
      transport_fails
        (srv (requests w)
             (api_url base_url (page_uri endpoint project_id offset))) ->
      get_pages base_url srv (S fuel) endpoint project_id collected offset w
      = Some (Ok (JList collected),
              mkWorld (requests w
                       ++ [api_url base_url (page_uri endpoint project_id offset)])
                      (shown w))) /\
  (forall (fuel : nat) (project_id : Z) (w w' : world) (e : exn),
      get_milestones base_url srv fuel project_id w <> Some (Raise e, w') /\
      get_plans base_url srv fuel project_id w <> Some (Raise e, w')).
Proof.
  split; [| split].
  - intros uri w H. now apply send_get_transport.
  - intros fuel endpoint project_id collected offset w H.
    rewrite get_pages_unfold.
    destruct (send_get_transport base_url srv _ w H) as [msg ->].
    reflexivity.
  - intros fuel project_id w w' e. split; apply get_pages_never_raises.
Qed.

(** Against a server whose calls all time out. *)
Lemma transport_failure_handling_witness :
  (exists msg,
      send_get "https://testrail" always_timeout "get_run/1" new_world
      = (Raise (Exception msg),
         mkWorld [api_url "https://testrail" "get_run/1"] [])) /\
  get_pages "https://testrail" always_timeout 1 "get_milestones" 9
            [JNum 7] 250 new_world
  = Some (Ok (JList [JNum 7]),
          mkWorld [api_url "https://testrail" (page_uri "get_milestones" 9 250)]
                  []).
Proof.
  split.
  - apply (proj1 (transport_failure_handling "https://testrail" always_timeout)
                 "get_run/1" new_world).
    left. reflexivity.
  - apply (proj1 (proj2 (transport_failure_handling "https://testrail"
                                                    always_timeout))
                 O "get_milestones" 9 [JNum 7] 250 new_world).
    left. reflexivity.
Defined.

(** C3, the statement of the specification fails: against a server that sends a first page
    of 250 items and then times out, [get_milestones] and [get_plans] send
    two requests and return the 250 items of the first page; the timeout of
    the second request does not reach their caller. *)
Lemma paginated_fetch_hides_timeout :
  one_page_then_timeout
    [api_url "https://testrail" (page_uri "get_milestones" 9 0)]
    (api_url "https://testrail" (page_uri "get_milestones" 9 250)) = Timeout /\
  get_milestones "https://testrail" one_page_then_timeout 10 9 new_world
  = Some (Ok (JList (repeat (JNum 1) 250)),
          mkWorld [api_url "https://testrail" (page_uri "get_milestones" 9 0);
                   api_url "https://testrail" (page_uri "get_milestones" 9 250)]
                  []) /\
  get_plans "https://testrail" one_page_then_timeout 10 9 new_world
  = Some (Ok (JList (repeat (JNum 1) 250)),
          mkWorld [api_url "https://testrail" (page_uri "get_plans" 9 0);
                   api_url "https://testrail" (page_uri "get_plans" 9 250)]
                  []).
Proof.
  repeat split; vm_compute; reflexivity.
Qed.

(** C8.  Against a server that answers the offsets 0, 250 and 500 with
    pages of 250, 250 and 100 items, [get_results_for_run] without a limit
    returns the 600 items of the three pages in the order of the requests,
    and the requests it has sent are exactly those three. *)
Theorem get_results_for_run_three_pages
        (base_url : string) (srv : server) (run_id : Z)
        (page1 page2 page3 : list json) (fuel : nat) (w : world) :
  len page1 = 250 -> len page2 = 250 -> len page3 = 100 ->
  serves_page srv base_url run_id 0 page1 ->
  serves_page srv base_url run_id 250 page2 ->
  serves_page srv base_url run_id 500 page3 ->
  (3 <= fuel)%nat ->
  get_results_for_run base_url srv fuel run_id None w
  = Some (Ok (page1 ++ page2 ++ page3),
          mkWorld (requests w
                   ++ [api_url base_url (results_uri run_id 0 250);
                       api_url base_url (results_uri run_id 250 250);
                       api_url base_url (results_uri run_id 500 250)])
                  (shown w))
  /\ len (page1 ++ page2 ++ page3) = 600.
Proof.
  intros H1 H2 H3 S1 S2 S3 Hfuel.
  split; [| rewrite !len_app; lia].
  destruct fuel as [|[|[|fuel]]]; try lia.
  unfold get_results_for_run.
  destruct (S1 (requests w)) as [t1 E1].
  rewrite (get_results_loop_full_page _ _ _ _ _ _ _ _ _ E1 H1);
    [| change (len (@nil json)) with 0; lia | discriminate].
  set (w1 := mkWorld _ _).
  destruct (S2 (requests w1)) as [t2 E2].
  change (0 + 250) with 250.
  rewrite (get_results_loop_full_page _ _ _ _ _ _ _ _ _ E2 H2);
    [| rewrite len_app; change (len (@nil json)) with 0; lia | discriminate].
  set (w2 := mkWorld _ _).
  destruct (S3 (requests w2)) as [t3 E3].
  change (250 + 250) with 500.
  rewrite (get_results_loop_short_page _ _ _ _ _ _ _ _ _ E3); [| lia].
  subst w2 w1. cbn [requests shown List.app].
  rewrite <- !app_assoc. reflexivity.
Qed.

(** Run 7 of [three_page_server]. *)
Lemma get_results_for_run_three_pages_witness :
  get_results_for_run "https://testrail" three_page_server 3 7 None new_world
  = Some (Ok (repeat (JNum 1) 250 ++ repeat (JNum 2) 250 ++ repeat (JNum 3) 100),
          mkWorld ([] ++ [api_url "https://testrail" (results_uri 7 0 250);
                          api_url "https://testrail" (results_uri 7 250 250);
                          api_url "https://testrail" (results_uri 7 500 250)])
                  [])
  /\ len (repeat (JNum 1) 250 ++ repeat (JNum 2) 250 ++ repeat (JNum 3) 100) = 600.
Proof.
  apply (get_results_for_run_three_pages "https://testrail" three_page_server 7
           (repeat (JNum 1) 250) (repeat (JNum 2) 250) (repeat (JNum 3) 100)
           3 new_world);
    try reflexivity;
    try (intros history; exists ""; vm_compute; reflexivity).
Defined.




(** ** Accumulation *)

Lemma bucket_sum_dict_set (m : metric) (p : string) (pd : platform_data) :
  forall ps : dict platform_data,
    bucket_sum m (dict_set p pd ps)
    = bucket_sum m ps
      + (bucket_count m (on_single pd) + bucket_count m (on_stack pd))
      - (bucket_count m (on_single (dict_get_default p empty_platform ps))
         + bucket_count m (on_stack (dict_get_default p empty_platform ps))).
Proof.
  unfold dict_get_default.
  induction ps as [|[k v] ps IH]; simpl.
  - destruct m; simpl; lia.
  - destruct (k =? p)%string; simpl; [lia | rewrite IH; lia].
Qed.

Lemma bucket_sum_update (m : metric) (p : string) (d : device)
      (f : bucket -> bucket) (ps : dict platform_data) :
  bucket_sum m (update_bucket p d f ps)
  = bucket_sum m ps
    + bucket_count m (f (bucket_of (dict_get_default p empty_platform ps) d))
    - bucket_count m (bucket_of (dict_get_default p empty_platform ps) d).
Proof.
  unfold update_bucket. rewrite bucket_sum_dict_set.
  destruct d; simpl; lia.
Qed.

Lemma slack_apply (m : metric) (bd : build_data) (u : update) :
  slack m (apply_update bd u) = slack m bd + effect m u.
Proof.
  unfold slack. destruct u as [m' n | p d m' n | p d label n]; simpl.
  - destruct m, m'; simpl; lia.
  - rewrite bucket_sum_update. destruct m, m'; simpl; lia.
  - rewrite bucket_sum_update. destruct m; simpl; lia.
Qed.

Lemma slack_exec (m : metric) (us : list update) :
  forall bd, slack m (exec us bd) = slack m bd + net m us.
Proof.
  unfold exec.
  induction us as [|u us IH]; intros bd; simpl.
  - lia.
  - rewrite IH, slack_apply. lia.
Qed.

Lemma net_app (m : metric) (us vs : list update) :
  net m (us ++ vs) = net m us + net m vs.
Proof. induction us; simpl; lia. Qed.

Lemma net_sections (m : metric) (us : list update) :
  Forall is_section_update us -> net m us = 0.
Proof.
  induction 1 as [|u us Hu _ IH]; simpl; [reflexivity |].
  destruct u; simpl in *; try contradiction. exact IH.
Qed.



Lemma add_sections_are_sections (p : string) (d : device) (l : list (string * Z)) :
  Forall is_section_update (add_sections p d l).
Proof.
  unfold add_sections. apply Forall_forall. intros u Hu.
  apply in_map_iff in Hu. destruct Hu as [sc [<- _]]. exact I.
Qed.

Lemma summary_sections_are_sections (fetch_sections : bool) (r : run)
      (d : device) (total : Z) :
  Forall is_section_update (summary_sections fetch_sections r d total).
Proof.
  unfold summary_sections.
  repeat match goal with
         | |- Forall _ (add_sections _ _ _) => apply add_sections_are_sections
         | |- Forall _ [_] => constructor; [exact I | constructor]
         | |- Forall _ (if ?b then _ else _) => destruct b
         | |- Forall _ (match ?x with _ => _ end) => destruct x
         end.
Qed.

Lemma detail_sections_are_sections (fetch_sections : bool) (r : run)
      (d : device) (total : Z) :
  Forall is_section_update (detail_sections fetch_sections r d total).
Proof.
  unfold detail_sections.
  repeat match goal with
         | |- Forall _ (add_sections _ _ _) => apply add_sections_are_sections
         | |- Forall _ [_] => constructor; [exact I | constructor]
         | |- Forall _ (if ?b then _ else _) => destruct b
         | |- Forall _ (match ?x with _ => _ end) => destruct x
         end.
Qed.









(** ** Degraded estimate of the summary-only tier *)

Lemma total_of_app (l1 l2 : list (string * Z)) :
  total_of (l1 ++ l2) = total_of l1 + total_of l2.
Proof.
  induction l1 as [|[s n] l1 IH]; simpl; [reflexivity | rewrite IH; lia].
Qed.

(** The loop hands out [q] to each name and one more to the names whose
    index is below [r]. *)
Lemma total_of_estimated_from (q r : Z) (names : list string) :
  0 <= q ->
  forall i : Z,
    0 <= i ->
    total_of (estimated_from i q r names)
    = len names * q + Z.max 0 (Z.min (r - i) (len names)).
Proof.
  intros Hq. unfold len.
  induction names as [|name names IH]; intros i Hi.
  - simpl. lia.
  - cbn [estimated_from]. rewrite total_of_app, IH by lia.
    cbn [List.length]. rewrite Nat2Z.inj_succ.
    destruct (i <? r) eqn:E; [apply Z.ltb_lt in E | apply Z.ltb_ge in E].
    + replace (0 <? q + 1) with true by (symmetry; apply Z.ltb_lt; lia).
      simpl. lia.
    + destruct (0 <? q + 0) eqn:E'; simpl; [lia |].
      apply Z.ltb_ge in E'. lia.
Qed.

(** With at most five named sections the estimate hands out the whole
    count. *)
Lemma estimate_small_suite (total : Z) (section_names : list string) :
  0 <= total -> 0 < len section_names <= 5 ->
  total_of (estimate total section_names) = total.
Proof.
  intros Ht Hn. unfold estimate.
  assert (Hlen : (List.length section_names <= 5)%nat) by (unfold len in Hn; lia).
  rewrite firstn_all2 by exact Hlen.
  pose proof (Z.div_mod total (len section_names) ltac:(lia)) as Hdm.
  pose proof (Z.mod_pos_bound total (len section_names) ltac:(lia)) as Hmod.
  pose proof (Z.div_pos total (len section_names) Ht ltac:(lia)) as Hdiv.
  rewrite total_of_estimated_from by lia.
  rewrite Z.sub_0_r. lia.
Qed.


(** ** Cache store *)


























(** A platform named like a section header is taken for the header when the
    file is read: the row of its single bucket switches the reader to the
    SECTIONS part, the row of its stack bucket is skipped as a column
    header, and the record loaded holds no platform. *)
Lemma header_named_platform_not_restored :
  save_then_load header_named_build "./testrail_cache" "Nightly" empty_fs
  = Ok (mkBuild (Some "T-202506251848") (Some "2025-06-25")
                (mkCounts 10 0 0 0 0 0) []) /\
  save_then_load header_named_build "./testrail_cache" "Nightly" empty_fs
  <> Ok header_named_build.
Proof.
  split; vm_compute; [reflexivity | discriminate].
Qed.

(** * Further properties *)

(** ** Remote data client *)

(** [send_get] sends exactly one request in every case and shows nothing;
    it returns a value exactly when the server answers with status 200 and
    JSON, and that value is the decoded JSON; in every other case it raises
    an [Exception] with a message. *)
Theorem send_get_outcomes (base_url : string) (srv : server) (uri : string)
        (w : world) :
  snd (send_get base_url srv uri w)
  = mkWorld (requests w ++ [api_url base_url uri]) (shown w) /\
  (forall j : json,
      fst (send_get base_url srv uri w) = Ok j <->
      exists text,
        srv (requests w) (api_url base_url uri) = Response 200 text (Some j)) /\
  (request_fails (srv (requests w) (api_url base_url uri)) <->
   exists msg, fst (send_get base_url srv uri w) = Raise (Exception msg)).
Proof.
  split; [apply send_get_logs |].
  unfold send_get, request_fails. cbv zeta.
  destruct (srv (requests w) (api_url base_url uri)) as [| |code text [j'|]];
    cbn [fst].
  - split.
    + intros j; split; [discriminate | intros [t H]; discriminate].
    + split; [intros _; eexists; reflexivity | trivial].
  - split.
    + intros j; split; [discriminate | intros [t H]; discriminate].
    + split; [intros _; eexists; reflexivity | trivial].
  - destruct (Z.eqb_spec code 200) as [-> | Hne]; cbn [negb fst].
    + split.
      * intros j; split.
        -- intros [= ->]. now exists text.
        -- intros [t [= _ ->]]. reflexivity.
      * split; [intros [H | H]; [now elim H | discriminate]
               | intros [msg H]; discriminate].
    + split.
      * intros j; split; [discriminate | intros [t [= H _ _]]; now elim Hne].
      * split; [intros _; eexists; reflexivity | intros _; now left].
  - destruct (Z.eqb_spec code 200) as [-> | Hne]; cbn [negb fst].
    + split.
      * intros j; split; [discriminate | intros [t H]; discriminate].
      * split; [intros _; eexists; reflexivity | intros _; now right].
    + split.
      * intros j; split; [discriminate | intros [t H]; discriminate].
      * split; [intros _; eexists; reflexivity | intros _; now left].
Qed.

Section MoreClientFacts.

Variable base_url : string.
Variable srv : server.

Lemma len_nonneg {A : Type} (l : list A) : 0 <= len l.
Proof. unfold len. lia. Qed.

Lemma len_nil_iff {A : Type} (l : list A) : len l = 0 <-> l = [].
Proof.
  unfold len. destruct l; simpl; split; try reflexivity; try discriminate; lia.
Qed.

(** One turn of the pagination on a full page. *)
Lemma get_pages_full_page (fuel : nat) (endpoint : string) (project_id : Z)
      (collected page : list json) (offset : Z) (w : world) (text : string) :
  srv (requests w) (api_url base_url (page_uri endpoint project_id offset))
  = Response 200 text (Some (JList page)) ->
  len page = 250 ->
  get_pages base_url srv (S fuel) endpoint project_id collected offset w
  = get_pages base_url srv fuel endpoint project_id (collected ++ page)
      (offset + 250)
      (mkWorld (requests w
                ++ [api_url base_url (page_uri endpoint project_id offset)])
               (shown w)).
Proof.
  intros Hsrv Hlen.
  rewrite get_pages_unfold, (send_get_page _ _ _ _ _ _ Hsrv).
  destruct page as [|x page]; [discriminate |].
  rewrite Hlen. reflexivity.
Qed.

(** One turn of the pagination on a page shorter than 250 items, empty or
    not: the loop ends with what is collected and the page. *)
Lemma get_pages_last_page (fuel : nat) (endpoint : string) (project_id : Z)
      (collected page : list json) (offset : Z) (w : world) (text : string) :
  srv (requests w) (api_url base_url (page_uri endpoint project_id offset))
  = Response 200 text (Some (JList page)) ->
  len page < 250 ->
  get_pages base_url srv (S fuel) endpoint project_id collected offset w
  = Some (Ok (JList (collected ++ page)),
          mkWorld (requests w
                   ++ [api_url base_url (page_uri endpoint project_id offset)])
                  (shown w)).
Proof.
  intros Hsrv Hlen.
  rewrite get_pages_unfold, (send_get_page _ _ _ _ _ _ Hsrv).
  destruct page as [|x page]; [now rewrite app_nil_r |].
  apply Z.ltb_lt in Hlen. now rewrite Hlen.
Qed.

(** One turn of the pagination on an answer that is not a list: the answer
    is returned and what was collected is dropped. *)
Lemma get_pages_not_a_list (fuel : nat) (endpoint : string) (project_id : Z)
      (collected : list json) (offset : Z) (w : world) (text : string)
      (j : json) :
  srv (requests w) (api_url base_url (page_uri endpoint project_id offset))
  = Response 200 text (Some j) ->
  not_a_list j ->
  get_pages base_url srv (S fuel) endpoint project_id collected offset w
  = Some (Ok j,
          mkWorld (requests w
                   ++ [api_url base_url (page_uri endpoint project_id offset)])
                  (shown w)).
Proof.
  intros Hsrv Hj.
  rewrite get_pages_unfold, (send_get_page _ _ _ _ _ _ Hsrv).
  destruct j; try reflexivity. contradiction.
Qed.

Lemma page_urls_succ (endpoint : string) (project_id : Z) (n : nat) :
  page_urls base_url endpoint project_id (S n)
  = page_urls base_url endpoint project_id n
    ++ [api_url base_url (page_uri endpoint project_id (250 * Z.of_nat n))].
Proof.
  unfold page_urls. rewrite seq_S, map_app. reflexivity.
Qed.

(** The turns on the full pages, from the state reached after [k] of
    them. *)
Lemma get_pages_full_pages (endpoint : string) (project_id : Z) :
  forall (full : list (list json)) (rest : list (list json)) (fuel k : nat)
         (collected : list json) (w0 : world),
    Forall (fun page => len page = 250) full ->
    serves_pages srv base_url endpoint project_id (250 * Z.of_nat k)
                 (full ++ rest) ->
    get_pages base_url srv (List.length full + fuel) endpoint project_id
              collected (250 * Z.of_nat k)
              (mkWorld (requests w0
                        ++ page_urls base_url endpoint project_id k)
                       (shown w0))
    = get_pages base_url srv fuel endpoint project_id
        (collected ++ List.concat full)
        (250 * Z.of_nat (k + List.length full))
        (mkWorld (requests w0
                  ++ page_urls base_url endpoint project_id
                       (k + List.length full))
                 (shown w0))
    /\ serves_pages srv base_url endpoint project_id
         (250 * Z.of_nat (k + List.length full)) rest.
Proof.
  induction full as [|page full IH];
    intros rest fuel k collected w0 Hfull Hsrv.
  - cbn [List.length List.concat List.app plus]. rewrite app_nil_r, Nat.add_0_r.
    split; [reflexivity | exact Hsrv].
  - inversion Hfull as [|? ? Hlen Hfull']; subst.
    cbn [List.app serves_pages] in Hsrv. destruct Hsrv as [Hpage Hrest].
    rewrite Hlen in Hrest.
    replace (250 * Z.of_nat k + 250) with (250 * Z.of_nat (S k)) in Hrest by lia.
    cbn [List.length plus List.concat].
    set (w := mkWorld _ _).
    destruct (Hpage (requests w)) as [text Htext].
    rewrite (get_pages_full_page _ _ _ _ _ _ _ _ Htext Hlen).
    subst w. cbn [requests shown].
    rewrite <- app_assoc, <- page_urls_succ.
    replace (250 * Z.of_nat k + 250) with (250 * Z.of_nat (S k)) by lia.
    destruct (IH rest fuel (S k) (collected ++ page) w0 Hfull' Hrest)
      as [Heq Hserves].
    rewrite Heq.
    replace (S k + List.length full)%nat with (k + S (List.length full))%nat
      in * by lia.
    rewrite <- app_assoc. split; [reflexivity | exact Hserves].
Qed.

End MoreClientFacts.

(** Pagination of [get_milestones] and [get_plans]: against a server that
    answers the successive offsets with any number of full pages of 250
    items and then a shorter page (empty or not), the fetch returns the
    items of all the pages in the order of the requests, and has sent one
    request per page and none after the short page. *)
Theorem get_pages_collects_all_pages
        (base_url : string) (srv : server) (endpoint : string) (project_id : Z)
        (full : list (list json)) (last : list json) (fuel : nat) (w : world) :
  Forall (fun page => len page = 250) full ->
  len last < 250 ->
  serves_pages srv base_url endpoint project_id 0 (full ++ [last]) ->
  (List.length full < fuel)%nat ->
  get_pages base_url srv fuel endpoint project_id [] 0 w
  = Some (Ok (JList (List.concat full ++ last)),
          mkWorld (requests w
                   ++ page_urls base_url endpoint project_id
                        (S (List.length full)))
                  (shown w)).
Proof.
  intros Hfull Hlast Hsrv Hfuel.
  replace fuel with (List.length full + S (fuel - S (List.length full)))%nat by lia.
  pose proof (get_pages_full_pages base_url srv endpoint project_id full [last]
                (S (fuel - S (List.length full))) 0 [] w Hfull Hsrv) as [Heq Hserves].
  unfold page_urls at 1 in Heq. cbn [seq map] in Heq.
  rewrite app_nil_r in Heq. cbn [Z.of_nat Z.mul] in Heq.
  destruct w as [reqs ui]. cbn [requests shown] in *.
  rewrite Heq. cbn [plus List.app].
  cbn [serves_pages] in Hserves. destruct Hserves as [Hpage _].
  set (w1 := mkWorld _ _).
  destruct (Hpage (requests w1)) as [text Htext].
  rewrite (get_pages_last_page _ _ _ _ _ _ _ _ _ _ Htext Hlast).
  subst w1. cbn [requests shown].
  rewrite <- app_assoc, <- page_urls_succ. reflexivity.
Qed.

(** Two milestone pages of 250 and 3 items. *)
Lemma get_pages_collects_all_pages_witness :
  get_pages "https://testrail" two_page_server 2 "get_milestones" 9 [] 0 new_world
  = Some (Ok (JList (List.concat [repeat (JNum 1) 250] ++ repeat (JNum 2) 3)),
          mkWorld (requests new_world
                   ++ page_urls "https://testrail" "get_milestones" 9 2)
                  (shown new_world)).
Proof.
  apply (get_pages_collects_all_pages "https://testrail" two_page_server
           "get_milestones" 9 [repeat (JNum 1) 250] (repeat (JNum 2) 3) 2
           new_world).
  - repeat constructor.
  - vm_compute. reflexivity.
  - cbn [List.app serves_pages]. repeat split;
      intros history; exists ""; vm_compute; reflexivity.
  - simpl. lia.
Defined.

(** An answer that is not a list ends the pagination of [get_milestones]
    and [get_plans] and is returned as it is: the items of the full pages
    collected before it are not part of the result. *)
Theorem get_pages_non_list_answer_replaces_pages
        (base_url : string) (srv : server) (endpoint : string) (project_id : Z)
        (full : list (list json)) (answer : json) (fuel : nat) (w : world) :
  Forall (fun page => len page = 250) full ->
  serves_pages srv base_url endpoint project_id 0 full ->
  (forall history, exists text,
      srv history
          (api_url base_url
             (page_uri endpoint project_id (250 * Z.of_nat (List.length full))))
      = Response 200 text (Some answer)) ->
  not_a_list answer ->
  (List.length full < fuel)%nat ->
  get_pages base_url srv fuel endpoint project_id [] 0 w
  = Some (Ok answer,
          mkWorld (requests w
                   ++ page_urls base_url endpoint project_id
                        (S (List.length full)))
                  (shown w)).
Proof.
  intros Hfull Hsrv Hanswer Hnot Hfuel.
  replace fuel with (List.length full + S (fuel - S (List.length full)))%nat by lia.
  rewrite <- (app_nil_r full) in Hsrv.
  pose proof (get_pages_full_pages base_url srv endpoint project_id full []
                (S (fuel - S (List.length full))) 0 [] w Hfull Hsrv) as [Heq _].
  unfold page_urls at 1 in Heq. cbn [seq map] in Heq.
  rewrite app_nil_r in Heq. cbn [Z.of_nat Z.mul] in Heq.
  destruct w as [reqs ui]. cbn [requests shown] in *.
  rewrite Heq. cbn [plus List.app].
  set (w1 := mkWorld _ _).
  destruct (Hanswer (requests w1)) as [text Htext].
  rewrite (get_pages_not_a_list _ _ _ _ _ _ _ _ _ _ Htext Hnot).
  subst w1. cbn [requests shown].
  rewrite <- app_assoc, <- page_urls_succ. reflexivity.
Qed.

(** A full page of milestones, then an error object: the object is what
    [get_milestones] returns. *)
Lemma get_pages_non_list_answer_replaces_pages_witness :
  get_pages "https://testrail" one_page_then_error_object 2 "get_milestones" 9
            [] 0 new_world
  = Some (Ok (JDict [("error", JStr "denied")]),
          mkWorld (requests new_world
                   ++ page_urls "https://testrail" "get_milestones" 9 2)
                  (shown new_world)).
Proof.
  apply (get_pages_non_list_answer_replaces_pages "https://testrail"
           one_page_then_error_object "get_milestones" 9
           [repeat (JNum 1) 250] (JDict [("error", JStr "denied")]) 2 new_world).
  - repeat constructor.
  - cbn [serves_pages]. split; [| exact I].
    intros history. exists "". vm_compute. reflexivity.
  - intros history. exists "". vm_compute. reflexivity.
  - exact I.
  - simpl. lia.
Defined.

(** [get_milestones] and [get_plans] have no ceiling: against a server that
    answers every request with a full page they do not finish, whatever the
    number of turns allowed. *)
Theorem get_pages_has_no_ceiling
        (base_url : string) (srv : server) (endpoint : string) (project_id : Z) :
  always_serves_full_pages srv ->
  forall (fuel : nat) (collected : list json) (offset : Z) (w : world),
    get_pages base_url srv fuel endpoint project_id collected offset w = None.
Proof.
  intros Hsrv.
  induction fuel as [|fuel IH]; intros collected offset w; [reflexivity |].
  destruct (Hsrv (requests w)
                 (api_url base_url (page_uri endpoint project_id offset)))
    as (text & page & Hpage & Hlen).
  rewrite (get_pages_full_page _ _ _ _ _ _ _ _ _ _ Hpage Hlen).
  apply IH.
Qed.

Lemma always_full_page_serves_full_pages :
  always_serves_full_pages always_full_page.
Proof.
  intros history url. exists "", (repeat (JNum 1) 250).
  split; reflexivity.
Qed.

(** A thousand turns against [always_full_page]. *)
Lemma get_pages_has_no_ceiling_witness :
  get_pages "https://testrail" always_full_page 1000 "get_plans" 9 [] 0 new_world
  = None.
Proof.
  apply (get_pages_has_no_ceiling "https://testrail" always_full_page
           "get_plans" 9 always_full_page_serves_full_pages).
Defined.

Section ResultsFacts.

Variable base_url : string.
Variable srv : server.

Lemma get_results_loop_step (fuel : nat) (run_id : Z) (limit : option Z)
      (results : list json) (offset : Z) (w : world) :
  get_results_loop base_url srv (S fuel) run_id limit results offset w =
  match next_limit limit results with
  | None => Some (Ok results, w)
  | Some current_limit =>
      match send_get base_url srv (results_uri run_id offset current_limit) w with
      | (Raise e, w1) =>
          Some (Ok results,
                st_show (UiError ("Error fetching results for run "
                                  ++ py_str run_id ++ ": " ++ exn_message e)) w1)
      | (Ok (JList (b :: bs)), w1) =>
          if len (b :: bs) <? current_limit
          then Some (Ok (results ++ b :: bs), w1)
          else
            let offset' := offset + len (b :: bs) in
            let w2 :=
              if (0 <? offset') && (offset' mod 1000 =? 0) then
                st_show (UiText ("    Fetched " ++ py_str offset'
                                 ++ " results so far...")) w1
              else w1 in
            if 10000 <? len (results ++ b :: bs) then
              Some (Ok (results ++ b :: bs),
                    st_show (UiWarning
                      ("Large number of results ("
                       ++ py_str (len (results ++ b :: bs)) ++ ") for run "
                       ++ py_str run_id
                       ++ ". Stopping to prevent timeout.")) w2)
            else get_results_loop base_url srv fuel run_id limit
                                  (results ++ b :: bs) offset' w2
      | (Ok _, w1) => Some (Ok results, w1)
      end
  end.
Proof. reflexivity. Qed.

(** [get_results_for_run] returns; it never raises. *)
Lemma get_results_loop_never_raises (run_id : Z) (limit : option Z) :
  forall (fuel : nat) (results : list json) (offset : Z) (w w' : world)
         (e : exn),
    get_results_loop base_url srv fuel run_id limit results offset w
    <> Some (Raise e, w').
Proof.
  induction fuel as [|fuel IH]; intros results offset w w' e; [discriminate |].
  rewrite get_results_loop_step.
  destruct (next_limit limit results) as [current_limit|]; [| discriminate].
  destruct (send_get base_url srv (results_uri run_id offset current_limit) w)
    as [[j|e0] w1]; [| discriminate].
  destruct j as [| | | |batch|]; try discriminate.
  destruct batch as [|b bs]; [discriminate |].
  destruct (len (b :: bs) <? current_limit); [discriminate |].
  cbv zeta.
  destruct (10000 <? len (results ++ b :: bs)); [discriminate | apply IH].
Qed.

Lemma send_get_fails (uri : string) (w : world) :
  request_fails (srv (requests w) (api_url base_url uri)) ->
  exists msg,
    send_get base_url srv uri w
    = (Raise (Exception msg),
       mkWorld (requests w ++ [api_url base_url uri]) (shown w)).
Proof.
  unfold send_get, request_fails. cbv zeta.
  destruct (srv (requests w) (api_url base_url uri)) as [| |code text [j|]];
    intros H; try (eexists; reflexivity).
  - destruct H as [H | H]; [| discriminate].
    apply Z.eqb_neq in H. rewrite H. eexists; reflexivity.
  - destruct (negb (code =? 200)); eexists; reflexivity.
Qed.

(** With a limit in force the loop keeps at most [limit] results and ends
    within as many turns as results are still wanted, plus one. *)
Lemma get_results_loop_within_limit (run_id limit : Z) :
  honours_limit srv base_url run_id -> limit <> 0 ->
  forall (fuel : nat) (results : list json) (offset : Z) (w : world),
    len results <= limit ->
    limit - len results < Z.of_nat fuel ->
    exists items w',
      get_results_loop base_url srv fuel run_id (Some limit) results offset w
      = Some (Ok items, w') /\ len items <= limit.
Proof.
  intros Hsrv Hnz.
  induction fuel as [|fuel IH]; intros results offset w Hlen Hfuel; [lia |].
  rewrite get_results_loop_step. unfold next_limit, batch_size.
  apply Z.eqb_neq in Hnz. rewrite Hnz.
  destruct (limit - len results <=? 0) eqn:Edone;
    [eexists _, _; split; [reflexivity | exact Hlen] |].
  apply Z.leb_gt in Edone.
  set (current_limit := if limit - len results <? 250
                        then limit - len results else 250).
  assert (Hcl : 1 <= current_limit <= limit - len results).
  { subst current_limit.
    destruct (limit - len results <? 250) eqn:E;
      [apply Z.ltb_lt in E | apply Z.ltb_ge in E]; lia. }
  replace (if limit - len results <? 250
           then Some (limit - len results) else Some 250)
    with (Some current_limit)
    by (subst current_limit; now destruct (limit - len results <? 250)).
  destruct (send_get base_url srv (results_uri run_id offset current_limit) w)
    as [[j|e] w1] eqn:Hget;
    [| eexists _, _; split; [reflexivity | exact Hlen]].
  destruct j as [| | | |batch|];
    try (eexists _, _; split; [reflexivity | exact Hlen]).
  destruct batch as [|b bs];
    [eexists _, _; split; [reflexivity | exact Hlen] |].
  apply send_get_ok in Hget. destruct Hget as [text Hpage].
  apply Hsrv in Hpage; [| lia].
  assert (Hnew : len (results ++ b :: bs) <= limit) by (rewrite len_app; lia).
  destruct (len (b :: bs) <? current_limit) eqn:Eshort;
    [eexists _, _; split; [reflexivity | exact Hnew] |].
  apply Z.ltb_ge in Eshort. cbv zeta.
  destruct (10000 <? len (results ++ b :: bs));
    [eexists _, _; split; [reflexivity | exact Hnew] |].
  apply IH; [exact Hnew | rewrite len_app; lia].
Qed.

Lemma get_results_loop_limit_zero (run_id : Z) :
  forall (fuel : nat) (results : list json) (offset : Z) (w : world),
    get_results_loop base_url srv fuel run_id (Some 0) results offset w
    = get_results_loop base_url srv fuel run_id None results offset w.
Proof.
  induction fuel as [|fuel IH]; intros results offset w; [reflexivity |].
  rewrite !get_results_loop_step.
  change (next_limit (Some 0) results) with (Some batch_size).
  change (next_limit None results) with (Some batch_size).
  cbv beta iota.
  destruct (send_get base_url srv (results_uri run_id offset batch_size) w)
    as [[j|e] w1]; [| reflexivity].
  destruct j as [| | | |batch|]; try reflexivity.
  destruct batch as [|b bs]; [reflexivity |].
  destruct (len (b :: bs) <? batch_size); [reflexivity |].
  cbv zeta.
  destruct (10000 <? len (results ++ b :: bs)); [reflexivity | apply IH].
Qed.

End ResultsFacts.

(** [get_results_for_run] with a limit.  Against a server that sends no
    more results than a request asks for, a positive limit is an upper
    bound on the number of results returned, and the fetch ends within
    [limit + 1] turns.  A limit of 0 is no limit, and a negative limit
    returns no result without sending a request. *)
Theorem get_results_for_run_limit
        (base_url : string) (srv : server) (run_id : Z) :
  (forall (limit : Z) (fuel : nat) (w : world),
      honours_limit srv base_url run_id -> 0 < limit ->
      limit < Z.of_nat fuel ->
      exists items w',
        get_results_for_run base_url srv fuel run_id (Some limit) w
        = Some (Ok items, w') /\ len items <= limit) /\
  (forall (fuel : nat) (w : world),
      get_results_for_run base_url srv fuel run_id (Some 0) w
      = get_results_for_run base_url srv fuel run_id None w) /\
  (forall (limit : Z) (fuel : nat) (w : world),
      limit < 0 ->
      get_results_for_run base_url srv (S fuel) run_id (Some limit) w
      = Some (Ok [], w)).
Proof.
  split; [| split].
  - intros limit fuel w Hsrv Hpos Hfuel.
    unfold get_results_for_run.
    apply get_results_loop_within_limit;
      [exact Hsrv | lia | change (len (@nil json)) with 0; lia
       | change (len (@nil json)) with 0; lia].
  - intros fuel w. apply get_results_loop_limit_zero.
  - intros limit fuel w Hneg.
    unfold get_results_for_run. rewrite get_results_loop_step.
    unfold next_limit.
    replace (limit =? 0) with false by (symmetry; apply Z.eqb_neq; lia).
    change (len (@nil json)) with 0.
    replace (limit - 0 <=? 0) with true by (symmetry; apply Z.leb_le; lia).
    reflexivity.
Qed.

Lemma one_result_per_request_honours_limit :
  honours_limit one_result_per_request "https://testrail" 7.
Proof.
  intros history offset current_limit text page Hcl.
  unfold one_result_per_request. intros [= _ <-].
  change (len [JNum 1]) with 1. exact Hcl.
Qed.

(** At most three results of run 7. *)
Lemma get_results_for_run_limit_witness :
  (exists items w',
      get_results_for_run "https://testrail" one_result_per_request 4 7 (Some 3)
                          new_world
      = Some (Ok items, w') /\ len items <= 3) /\
  get_results_for_run "https://testrail" one_result_per_request 1 7 (Some (-2))
                      new_world
  = Some (Ok [], new_world).
Proof.
  split.
  - apply (proj1 (get_results_for_run_limit "https://testrail"
                    one_result_per_request 7) 3 4%nat new_world).
    + exact one_result_per_request_honours_limit.
    + lia.
    + simpl. lia.
  - apply (proj2 (proj2 (get_results_for_run_limit "https://testrail"
                           one_result_per_request 7)) (-2) 0%nat new_world).
    lia.
Defined.

Section ResultsFailure.

Variable base_url : string.
Variable srv : server.

Lemma result_urls_succ (run_id : Z) (k n : nat) :
  result_urls base_url run_id k (S n)
  = result_urls base_url run_id k n
    ++ [api_url base_url (results_uri run_id (250 * Z.of_nat (k + n)) 250)].
Proof.
  unfold result_urls. rewrite seq_S, map_app. reflexivity.
Qed.

(** One turn of the loop without a limit on a full page below the ceiling:
    the page is appended and one request has been sent. *)
Lemma get_results_loop_full_turn (fuel : nat) (run_id : Z)
      (results page : list json) (offset : Z) (w : world) :
  serves_page srv base_url run_id offset page ->
  len page = 250 ->
  len results + 250 <= 10000 ->
  exists w1,
    get_results_loop base_url srv (S fuel) run_id None results offset w
    = get_results_loop base_url srv fuel run_id None (results ++ page)
                       (offset + 250) w1
    /\ requests w1
       = requests w ++ [api_url base_url (results_uri run_id offset 250)].
Proof.
  intros Hsrv Hlen Hcap.
  destruct (Hsrv (requests w)) as [text Htext].
  rewrite get_results_loop_unfold, (send_get_page _ _ _ _ _ _ Htext).
  destruct page as [|b bs]; [discriminate |].
  rewrite Hlen. change (250 <? 250) with false. cbv iota zeta.
  assert (E : (10000 <? len (results ++ b :: bs)) = false)
    by (apply Z.ltb_ge; rewrite len_app; lia).
  rewrite E.
  destruct ((0 <? offset + 250) && ((offset + 250) mod 1000 =? 0));
    eexists; split; reflexivity.
Qed.

Lemma get_results_loop_full_turns (run_id : Z) :
  forall (full : list (list json)) (fuel k : nat) (results : list json)
         (w : world),
    Forall (fun page => len page = 250) full ->
    serves_result_pages srv base_url run_id (250 * Z.of_nat k) full ->
    len results = 250 * Z.of_nat k ->
    (k + List.length full <= 40)%nat ->
    exists w1,
      get_results_loop base_url srv (List.length full + fuel) run_id None
                       results (250 * Z.of_nat k) w
      = get_results_loop base_url srv fuel run_id None
                         (results ++ List.concat full)
                         (250 * Z.of_nat (k + List.length full)) w1
      /\ requests w1
         = requests w ++ result_urls base_url run_id k (List.length full).
Proof.
  induction full as [|page full IH];
    intros fuel k results w Hfull Hsrv Hlen Hcap.
  - exists w. cbn [List.length List.concat plus].
    rewrite !app_nil_r, Nat.add_0_r. split; reflexivity.
  - inversion Hfull as [|? ? Hpage Hfull']; subst.
    cbn [serves_result_pages] in Hsrv. destruct Hsrv as [Hserve Hrest].
    cbn [List.length] in Hcap.
    cbn [List.length plus List.concat].
    destruct (get_results_loop_full_turn (List.length full + fuel) run_id
                results page (250 * Z.of_nat k) w Hserve Hpage ltac:(lia))
      as [w1 [Heq Hreq]].
    rewrite Heq.
    rewrite Hpage in Hrest.
    replace (250 * Z.of_nat k + 250) with (250 * Z.of_nat (S k)) in * by lia.
    destruct (IH fuel (S k) (results ++ page) w1 Hfull' Hrest
                 ltac:(rewrite len_app; lia) ltac:(lia))
      as [w2 [Heq2 Hreq2]].
    exists w2. rewrite Heq2, Hreq2, Hreq.
    replace (S k + List.length full)%nat with (k + S (List.length full))%nat
      by lia.
    rewrite <- !app_assoc. split; [reflexivity |].
    reflexivity.
Qed.

End ResultsFailure.

(** A failed request ends [get_results_for_run] without an exception: when
    the server has answered the first offsets with full pages (at most 40,
    so that the ceiling is not reached) and the next request fails, by a
    timeout, a refused connection, a status other than 200 or a text that is
    not JSON, the fetch returns the items of the pages received so far, has
    sent one request per page and the failed one, and the last message
    shown is the error.  In no case does the fetch raise. *)
Theorem get_results_for_run_keeps_pages_on_failure
        (base_url : string) (srv : server) (run_id : Z) :
  (forall (full : list (list json)) (fuel : nat) (w : world),
      Forall (fun page => len page = 250) full ->
      (List.length full <= 40)%nat ->
      serves_result_pages srv base_url run_id 0 full ->
      (forall history,
          request_fails
            (srv history
                 (api_url base_url
                    (results_uri run_id (250 * Z.of_nat (List.length full)) 250)))) ->
      (List.length full < fuel)%nat ->
      exists w' msg,
        get_results_for_run base_url srv fuel run_id None w
        = Some (Ok (List.concat full), w')
        /\ requests w'
           = requests w
             ++ result_urls base_url run_id 0 (S (List.length full))
        /\ last (shown w') (UiText "")
           = UiError ("Error fetching results for run " ++ py_str run_id
                      ++ ": " ++ msg)) /\
  (forall (fuel : nat) (limit : option Z) (w w' : world) (e : exn),
      get_results_for_run base_url srv fuel run_id limit w
      <> Some (Raise e, w')).
Proof.
  split.
  - intros full fuel w Hfull Hcap Hsrv Hfail Hfuel.
    unfold get_results_for_run.
    replace fuel with (List.length full + S (fuel - S (List.length full)))%nat
      by lia.
    destruct (get_results_loop_full_turns base_url srv run_id full
                (S (fuel - S (List.length full))) 0 [] w Hfull Hsrv
                eq_refl ltac:(lia)) as [w1 [Heq Hreq]].
    change (250 * Z.of_nat 0) with 0 in Heq. rewrite Heq.
    cbn [List.app plus].
    rewrite get_results_loop_unfold.
    destruct (send_get_fails base_url srv _ w1 (Hfail (requests w1)))
      as [msg ->].
    eexists _, msg. split; [reflexivity | split].
    + cbn [st_show requests]. rewrite Hreq, result_urls_succ.
      rewrite <- app_assoc. reflexivity.
    + cbn [st_show shown exn_message]. apply last_last.
  - intros fuel limit w w' e. apply get_results_loop_never_raises.
Qed.

(** One full page of results, then status 500. *)
Lemma get_results_for_run_keeps_pages_on_failure_witness :
  exists w' msg,
    get_results_for_run "https://testrail" one_page_then_status_500 2 7 None
                        new_world
    = Some (Ok (List.concat [repeat (JNum 1) 250]), w')
    /\ requests w'
       = requests new_world ++ result_urls "https://testrail" 7 0 2
    /\ last (shown w') (UiText "")
       = UiError ("Error fetching results for run " ++ py_str 7 ++ ": " ++ msg).
Proof.
  apply (proj1 (get_results_for_run_keeps_pages_on_failure "https://testrail"
                  one_page_then_status_500 7)
               [repeat (JNum 1) 250] 2%nat new_world).
  - repeat constructor.
  - simpl. lia.
  - cbn [serves_result_pages]. split; [| exact I].
    intros history. exists "". vm_compute. reflexivity.
  - intros history. vm_compute. left. discriminate.
  - simpl. lia.
Defined.

(** ** Cache store *)

Lemma map_string_get_inv (f : ascii -> ascii) (s : string) :
  forall (i : nat) (c : ascii),
    String.get i (map_string f s) = Some c ->
    exists c0, String.get i s = Some c0 /\ c = f c0.
Proof.
  induction s as [|a s IH]; intros i c; simpl.
  - discriminate.
  - destruct i; [intros [= <-]; now exists a | apply IH].
Qed.

Lemma safe_char_idempotent (c : ascii) : safe_char (safe_char c) = safe_char c.
Proof.
  revert c.
  assert (H : forall c, Ascii.eqb (safe_char (safe_char c)) (safe_char c) = true)
    by (apply forall_ascii; vm_compute; reflexivity).
  intros c. apply Ascii.eqb_eq, H.
Qed.

Lemma safe_char_is_safe (c : ascii) :
  (re_word (safe_char c) || (ord (safe_char c) =? 45)) = true.
Proof.
  revert c. apply forall_ascii. vm_compute. reflexivity.
Qed.

(** Sanitizing is idempotent, and a sanitized name is made of word
    characters and hyphens only: it holds no path separator, no dot, no
    colon and no blank, so the file of a build lies directly in the
    directory of its release. *)
Theorem safe_name_is_a_file_name (name : string) :
  safe_name (safe_name name) = safe_name name /\
  forall (i : nat) (c : ascii),
    String.get i (safe_name name) = Some c ->
    (re_word c || (ord c =? 45)) = true /\
    c <> "/"%char /\ c <> "\"%char /\ c <> "."%char /\ c <> ":"%char /\
    c <> " "%char.
Proof.
  split.
  - unfold safe_name. induction name as [|a name IH]; simpl;
      [reflexivity | now rewrite IH, safe_char_idempotent].
  - intros i c H. unfold safe_name in H.
    apply map_string_get_inv in H. destruct H as [c0 [_ ->]].
    pose proof (safe_char_is_safe c0) as Hsafe.
    split; [exact Hsafe |].
    repeat split; intros E; rewrite E in Hsafe; vm_compute in Hsafe;
      discriminate.
Qed.

Lemma safe_name_is_a_file_name_witness :
  (re_word "_"%char || (ord "_"%char =? 45)) = true /\
  "_"%char <> "/"%char /\ "_"%char <> "\"%char /\ "_"%char <> "."%char /\
  "_"%char <> ":"%char /\ "_"%char <> " "%char.
Proof.
  apply (proj2 (safe_name_is_a_file_name "../etc/passwd") 0%nat "_"%char).
  reflexivity.
Defined.

Lemma check_cached_builds_filter
      (cache_dir release_milestone : string) (fs : filesystem) :
  forall build_milestones : list milestone,
    check_cached_builds cache_dir release_milestone build_milestones fs
    = (filter (in_cache cache_dir release_milestone fs) build_milestones,
       filter (fun build_ms =>
                 negb (in_cache cache_dir release_milestone fs build_ms))
              build_milestones).
Proof.
  induction build_milestones as [|build_ms rest IH]; [reflexivity |].
  cbn [check_cached_builds filter]. rewrite IH.
  destruct (in_cache cache_dir release_milestone fs build_ms) eqn:E;
    unfold in_cache in E;
    destruct (fs (cache_file cache_dir release_milestone (ms_name build_ms)));
    try discriminate; reflexivity.
Qed.

(** [check_cached_builds] splits the builds, in their order, into those
    whose file exists and those whose file does not: every build is in
    exactly one of the two lists. *)
Theorem check_cached_builds_partitions
        (cache_dir release_milestone : string) (build_milestones : list milestone)
        (fs : filesystem) :
  fst (check_cached_builds cache_dir release_milestone build_milestones fs)
  = filter (in_cache cache_dir release_milestone fs) build_milestones /\
  snd (check_cached_builds cache_dir release_milestone build_milestones fs)
  = filter (fun build_ms => negb (in_cache cache_dir release_milestone fs build_ms))
           build_milestones /\
  (forall build_ms : milestone,
      In build_ms build_milestones ->
      (In build_ms
          (fst (check_cached_builds cache_dir release_milestone
                                    build_milestones fs))
       /\ in_cache cache_dir release_milestone fs build_ms = true)
      \/
      (In build_ms
          (snd (check_cached_builds cache_dir release_milestone
                                    build_milestones fs))
       /\ in_cache cache_dir release_milestone fs build_ms = false)) /\
  (List.length (fst (check_cached_builds cache_dir release_milestone
                                         build_milestones fs))
   + List.length (snd (check_cached_builds cache_dir release_milestone
                                           build_milestones fs))
   = List.length build_milestones)%nat.
Proof.
  rewrite check_cached_builds_filter. cbn [fst snd].
  repeat split.
  - intros build_ms Hin.
    destruct (in_cache cache_dir release_milestone fs build_ms) eqn:E.
    + left. split; [| reflexivity]. apply filter_In. now split.
    + right. split; [| reflexivity]. apply filter_In. split; [exact Hin |].
      now rewrite E.
  - induction build_milestones as [|b rest IH]; [reflexivity |].
    cbn [filter]. destruct (in_cache cache_dir release_milestone fs b);
      cbn [negb List.length]; lia.
Qed.

Lemma check_cached_builds_partitions_witness :
  (In (mkMilestone 2 "a_b")
      (fst (check_cached_builds "./testrail_cache" "Nightly"
                                [mkMilestone 2 "a_b"] empty_fs))
   /\ in_cache "./testrail_cache" "Nightly" empty_fs (mkMilestone 2 "a_b") = true)
  \/
  (In (mkMilestone 2 "a_b")
      (snd (check_cached_builds "./testrail_cache" "Nightly"
                                [mkMilestone 2 "a_b"] empty_fs))
   /\ in_cache "./testrail_cache" "Nightly" empty_fs (mkMilestone 2 "a_b") = false).
Proof.
  apply (proj1 (proj2 (proj2 (check_cached_builds_partitions
                                "./testrail_cache" "Nightly"
                                [mkMilestone 2 "a_b"] empty_fs)))
               (mkMilestone 2 "a_b")).
  left. reflexivity.
Defined.



















(** ** Percentages *)



(** ** Naming and date helpers *)

(** Whatever the release family, [matches_release_pattern] returns a
    boolean, and it returns true only for an identifier in which
    [parse_build_date] finds a date of the calendar: every milestone that
    matches a release is eligible as a build. *)
Theorem matches_release_pattern_needs_date
        (milestone_name release_milestone : string) :
  (exists b, matches_release_pattern milestone_name release_milestone = Ok b) /\
  (matches_release_pattern milestone_name release_milestone = Ok true ->
   exists dt, parse_build_date milestone_name = Ok (Some dt) /\ valid_date dt).
Proof.
  assert (Hdate : has_build_date milestone_name = Ok true ->
                  exists dt, parse_build_date milestone_name = Ok (Some dt)
                             /\ valid_date dt).
  { intros H. apply has_build_date_iff in H. destruct H as [dt H].
    exists dt. split; [exact H |].
    destruct (parse_build_date_total milestone_name) as [E | [dt' [E Hv]]];
      rewrite H in E; [discriminate | now injection E as ->]. }
  assert (Hand : forall a,
             (exists b, and_then a (has_build_date milestone_name) = Ok b) /\
             (and_then a (has_build_date milestone_name) = Ok true ->
              exists dt, parse_build_date milestone_name = Ok (Some dt)
                         /\ valid_date dt)).
  { intros a. split.
    - destruct a; simpl; [apply has_build_date_returns | now exists false].
    - intros H. apply and_then_true in H. now apply Hdate. }
  unfold matches_release_pattern.
  repeat match goal with
         | |- context [if ?b then _ else _] => destruct b
         end;
    try apply Hand.
  split; [apply has_build_date_returns | exact Hdate].
Qed.

Lemma matches_release_pattern_needs_date_witness :
  exists dt,
    parse_build_date "T-202506251848-G61bcac03e7e2-jenkins-anklet"
    = Ok (Some dt) /\ valid_date dt.
Proof.
  apply (proj2 (matches_release_pattern_needs_date
                  "T-202506251848-G61bcac03e7e2-jenkins-anklet" "Nightly")).
  vm_compute. reflexivity.
Defined.

Lemma lower_char_facts (c : ascii) :
  re_digit (lower_char c) = re_digit c /\
  (re_digit c = true -> lower_char c = c) /\
  (ord (lower_char c) =? 45) = (ord c =? 45) /\
  (ord (lower_char c) =? 95) = (ord c =? 95) /\
  lower_char (lower_char c) = lower_char c.
Proof.
  revert c.
  assert (H : forall c,
             Bool.eqb (re_digit (lower_char c)) (re_digit c)
             && (negb (re_digit c) || Ascii.eqb (lower_char c) c)
             && Bool.eqb (ord (lower_char c) =? 45) (ord c =? 45)
             && Bool.eqb (ord (lower_char c) =? 95) (ord c =? 95)
             && Ascii.eqb (lower_char (lower_char c)) (lower_char c) = true)
    by (apply forall_ascii; vm_compute; reflexivity).
  intros c. specialize (H c).
  repeat (apply andb_true_iff in H; destruct H as [H ?]).
  repeat split.
  - now apply Bool.eqb_prop.
  - intros Hd. rewrite Hd in *. now apply Ascii.eqb_eq.
  - now apply Bool.eqb_prop.
  - now apply Bool.eqb_prop.
  - now apply Ascii.eqb_eq.
Qed.

Lemma lower_idempotent (s : string) : lower (lower s) = lower s.
Proof.
  unfold lower. induction s as [|c s IH]; simpl; [reflexivity |].
  rewrite IH. f_equal. apply lower_char_facts.
Qed.

Lemma digits_lower (n : nat) :
  forall s : string,
    digits n (lower s)
    = match digits n s with
      | Some (g, rest) => Some (g, lower rest)
      | None => None
      end.
Proof.
  induction n as [|n IH]; intros s; [reflexivity |].
  destruct s as [|c s]; [reflexivity |].
  cbn [lower map_string digits]. fold (lower s).
  destruct (lower_char_facts c) as (Hd & Hfix & _).
  rewrite Hd. destruct (re_digit c) eqn:E; [| reflexivity].
  rewrite IH, (Hfix eq_refl).
  destruct (digits n s) as [[g rest]|]; reflexivity.
Qed.

Lemma opt_hyphen_lower {G : Type} (k : string -> option G) (s : string) :
  (forall x, k (lower x) = k x) ->
  opt_hyphen k (lower s) = opt_hyphen k s.
Proof.
  intros Hk. destruct s as [|c s]; cbn [lower map_string opt_hyphen].
  - exact (Hk EmptyString).
  - fold (lower s).
    destruct (lower_char_facts c) as (_ & _ & H45 & _).
    rewrite H45.
    change (String (lower_char c) (lower s)) with (lower (String c s)).
    now rewrite !Hk.
Qed.

Lemma date_pattern1_lower (s : string) :
  date_pattern1 (lower s) = date_pattern1 s.
Proof.
  unfold date_pattern1. rewrite digits_lower.
  destruct (digits 4 s) as [[y s1]|]; [| reflexivity].
  rewrite digits_lower. destruct (digits 2 s1) as [[m s2]|]; [| reflexivity].
  rewrite digits_lower. destruct (digits 2 s2) as [[d s3]|]; [| reflexivity].
  rewrite digits_lower. destruct (digits 4 s3) as [[t s4]|]; reflexivity.
Qed.

Lemma date_pattern2_lower (s : string) :
  date_pattern2 (lower s) = date_pattern2 s.
Proof.
  unfold date_pattern2. rewrite digits_lower.
  destruct (digits 4 s) as [[y s1]|]; [| reflexivity].
  rewrite digits_lower. destruct (digits 2 s1) as [[m s2]|]; [| reflexivity].
  rewrite digits_lower. destruct (digits 2 s2) as [[d s3]|]; [| reflexivity].
  destruct s3 as [|c s3]; [reflexivity |].
  cbn [lower map_string]. fold (lower s3).
  destruct (lower_char_facts c) as (_ & _ & _ & H95 & _).
  rewrite H95. destruct (ord c =? 95); [| reflexivity].
  rewrite digits_lower. destruct (digits 6 s3) as [[t s4]|]; reflexivity.
Qed.

Lemma date_pattern3_lower (s : string) :
  date_pattern3 (lower s) = date_pattern3 s.
Proof.
  unfold date_pattern3. rewrite digits_lower.
  destruct (digits 4 s) as [[y s1]|]; [| reflexivity].
  apply opt_hyphen_lower. intros x.
  rewrite digits_lower. destruct (digits 2 x) as [[m s2]|]; [| reflexivity].
  apply opt_hyphen_lower. intros x'.
  rewrite digits_lower. destruct (digits 2 x') as [[d s3]|]; reflexivity.
Qed.

Lemma re_search_lower {G : Type} (match_at : string -> option G) :
  (forall x, match_at (lower x) = match_at x) ->
  forall s, re_search match_at (lower s) = re_search match_at s.
Proof.
  intros H. induction s as [|c s IH].
  - change (lower EmptyString) with EmptyString. reflexivity.
  - change (lower (String c s)) with (String (lower_char c) (lower s)).
    cbn [re_search].
    change (String (lower_char c) (lower s)) with (lower (String c s)).
    rewrite H. now rewrite IH.
Qed.

Lemma parse_build_date_lower (s : string) :
  parse_build_date (lower s) = parse_build_date s.
Proof.
  unfold parse_build_date.
  now rewrite (re_search_lower _ date_pattern1_lower),
              (re_search_lower _ date_pattern2_lower),
              (re_search_lower _ date_pattern3_lower).
Qed.

(** Letter case plays no part in the naming helpers: two identifiers that
    differ by case only have the same build date, and match the same
    release families, whose names are compared without regard to case as
    well. *)
Theorem release_matching_ignores_case
        (name1 name2 release1 release2 : string) :
  lower name1 = lower name2 -> lower release1 = lower release2 ->
  parse_build_date name1 = parse_build_date name2 /\
  matches_release_pattern name1 release1
  = matches_release_pattern name2 release2.
Proof.
  intros Hn Hr.
  assert (Hp : parse_build_date name1 = parse_build_date name2)
    by (rewrite <- (parse_build_date_lower name1),
                <- (parse_build_date_lower name2), Hn; reflexivity).
  split; [exact Hp |].
  unfold matches_release_pattern, has_build_date. now rewrite Hn, Hr, Hp.
Qed.

Lemma release_matching_ignores_case_witness :
  parse_build_date "CS-17-2-202506022349-REL"
  = parse_build_date "cs-17-2-202506022349-rel" /\
  matches_release_pattern "CS-17-2-202506022349-REL" "cs-1"
  = matches_release_pattern "cs-17-2-202506022349-rel" "CS-1".
Proof.
  apply (release_matching_ignores_case "CS-17-2-202506022349-REL"
           "cs-17-2-202506022349-rel" "cs-1" "CS-1"); reflexivity.
Defined.

(** ** Accumulation *)

Lemma estimated_from_length (q r : Z) (names : list string) :
  forall i : Z,
    (List.length (estimated_from i q r names) <= List.length names)%nat /\
    Forall (fun sc => 0 < snd sc) (estimated_from i q r names).
Proof.
  induction names as [|name names IH]; intros i; cbn [estimated_from].
  - split; [reflexivity | constructor].
  - destruct (IH (i + 1)) as [Hlen Hpos].
    destruct (0 <? q + (if i <? r then 1 else 0)) eqn:E;
      cbn [List.app List.length]; split; try lia; try exact Hpos.
    constructor; [apply Z.ltb_lt in E; exact E | exact Hpos].
Qed.

Lemma estimate_total_bounds (total : Z) (section_names : list string) :
  0 <= total -> 0 < len section_names ->
  0 <= total_of (estimate total section_names) <= total.
Proof.
  intros Ht Hn. unfold estimate.
  pose proof (Z.div_mod total (len section_names) ltac:(lia)) as Hdm.
  pose proof (Z.mod_pos_bound total (len section_names) ltac:(lia)) as Hmod.
  pose proof (Z.div_pos total (len section_names) Ht ltac:(lia)) as Hdiv.
  rewrite total_of_estimated_from by lia.
  assert (Hfirst : 0 <= len (firstn 5 section_names) <= len section_names).
  { unfold len. rewrite length_firstn. lia. }
  rewrite Z.sub_0_r. nia.
Qed.

(** The degraded estimate never attributes more than the failures and
    errors of the run: for a count that is not negative and a suite with
    named sections, it adds at most five labels, each with a positive count,
    whose sum is at most the count; with five named sections or fewer the
    sum is the count. *)
Theorem estimate_is_bounded (total : Z) (section_names : list string) :
  0 <= total -> 0 < len section_names ->
  (List.length (estimate total section_names) <= 5)%nat /\
  Forall (fun sc => 0 < snd sc) (estimate total section_names) /\
  0 <= total_of (estimate total section_names) <= total /\
  (len section_names <= 5 -> total_of (estimate total section_names) = total).
Proof.
  intros Ht Hn.
  destruct (estimated_from_length (total / len section_names)
              (total mod len section_names) (firstn 5 section_names) 0)
    as [Hlen Hpos].
  split; [| split; [exact Hpos | split]].
  - unfold estimate. rewrite length_firstn in Hlen. lia.
  - now apply estimate_total_bounds.
  - intros Hsmall. apply estimate_small_suite; lia.
Qed.

Lemma estimate_is_bounded_witness :
  (List.length (estimate 10 ["a"; "b"; "c"; "d"; "e"; "f"; "g"]) <= 5)%nat /\
  Forall (fun sc => 0 < snd sc) (estimate 10 ["a"; "b"; "c"; "d"; "e"; "f"; "g"]) /\
  0 <= total_of (estimate 10 ["a"; "b"; "c"; "d"; "e"; "f"; "g"]) <= 10 /\
  (len ["a"; "b"; "c"; "d"; "e"; "f"; "g"] <= 5 ->
   total_of (estimate 10 ["a"; "b"; "c"; "d"; "e"; "f"; "g"]) = 10).
Proof.
  apply (estimate_is_bounded 10 ["a"; "b"; "c"; "d"; "e"; "f"; "g"]).
  - lia.
  - vm_compute. reflexivity.
Defined.

Lemma exec_app (us vs : list update) (bd : build_data) :
  exec (us ++ vs) bd = exec vs (exec us bd).
Proof. unfold exec. apply fold_left_app. Qed.

Lemma exec_keeps_overall (us : list update) :
  Forall (fun u => match u with AddOverall _ _ => False | _ => True end) us ->
  forall bd, overall (exec us bd) = overall bd.
Proof.
  unfold exec.
  induction 1 as [|u us Hu _ IH]; intros bd; simpl; [reflexivity |].
  rewrite IH. destruct u; simpl in *; try contradiction; reflexivity.
Qed.

Lemma sections_keep_overall (us : list update) :
  Forall is_section_update us ->
  Forall (fun u => match u with AddOverall _ _ => False | _ => True end) us.
Proof.
  intros H. eapply Forall_impl; [| exact H].
  intros [] Hu; simpl in *; tauto.
Qed.

Lemma tally_total (temp : counts) (result : json) :
  total_counts (tally temp result)
  = total_counts temp + (if has_known_status result then 1 else 0).
Proof.
  unfold tally, has_known_status, total_counts.
  destruct result; try (simpl; lia).
  set (status := dict_get_default "status_id" (JNum 0) fields).
  destruct (eq_int status 1) eqn:E1; [simpl; lia |].
  destruct (eq_int status 5) eqn:E5;
    [destruct (eq_int status 2), (eq_int status 3), (eq_int status 4);
     simpl; lia |].
  destruct (eq_int status 6) eqn:E6;
    [destruct (eq_int status 2), (eq_int status 3), (eq_int status 4);
     simpl; lia |].
  destruct (eq_int status 7) eqn:E7;
    [destruct (eq_int status 2), (eq_int status 3), (eq_int status 4);
     simpl; lia |].
  destruct (eq_int status 2) eqn:E2; [simpl; lia |].
  destruct (eq_int status 4) eqn:E4;
    [destruct (eq_int status 3); simpl; lia |].
  destruct (eq_int status 3) eqn:E3; simpl; lia.
Qed.

Lemma count_results_total (results : list json) :
  total_counts (count_results results)
  = len (filter has_known_status results).
Proof.
  unfold count_results.
  assert (H : forall temp,
             total_counts (fold_left tally results temp)
             = total_counts temp + len (filter has_known_status results)).
  { induction results as [|r results IH]; intros temp; cbn [fold_left filter].
    - change (len (@nil json)) with 0. lia.
    - rewrite IH, tally_total.
      destruct (has_known_status r); [| lia].
      unfold len. cbn [List.length]. lia. }
  rewrite H. reflexivity.
Qed.

(** Every test of a run is counted once in the overall counts.  A run
    whose counts are the summary of [get_run] adds its whole test count,
    the untested tests included; a run counted from its results adds one
    for each result that is a dict with one of the seven known statuses,
    whatever the summary says, and so at most the number of results; a run
    with no test, or with no executed test, or whose [get_run] raised,
    leaves the build record as it is. *)
Theorem run_adds_each_test_once
        (force_summary_only fetch_sections : bool) (r : run) (bd : build_data) :
  (forall c : run_counts,
      run_details r = Ok c -> test_count c <> 0 -> executed_count c <> 0 ->
      results_fetched force_summary_only r c = false ->
      total_counts (overall (exec (run_updates force_summary_only
                                               fetch_sections r) bd))
      = total_counts (overall bd) + test_count c) /\
  (forall c : run_counts,
      run_details r = Ok c -> test_count c <> 0 -> executed_count c <> 0 ->
      results_fetched force_summary_only r c = true ->
      total_counts (overall (exec (run_updates force_summary_only
                                               fetch_sections r) bd))
      = total_counts (overall bd)
        + len (filter has_known_status (results r))
      /\ len (filter has_known_status (results r)) <= len (results r)) /\
  ((forall c : run_counts,
       run_details r = Ok c -> test_count c = 0 \/ executed_count c = 0) ->
   exec (run_updates force_summary_only fetch_sections r) bd = bd).
Proof.
  split; [| split].
  - intros c Hc Ht He Hf. unfold run_updates. rewrite Hc, Hf.
    apply Z.eqb_neq in Ht, He. rewrite Ht, He. cbn [orb].
    unfold summary_updates. rewrite exec_app.
    rewrite exec_keeps_overall.
    + unfold total_counts, test_count. simpl. lia.
    + destruct (classified r) as [d|]; [| constructor].
      repeat (constructor; [exact I |]).
      apply sections_keep_overall.
      destruct (0 <? _); [apply summary_sections_are_sections | constructor].
  - intros c Hc Ht He Hf. unfold run_updates. rewrite Hc, Hf.
    apply Z.eqb_neq in Ht, He. rewrite Ht, He. cbn [orb].
    split.
    + unfold detail_updates. rewrite exec_app.
      rewrite exec_keeps_overall.
      * rewrite <- count_results_total.
        unfold total_counts. simpl. lia.
      * destruct (classified r) as [d|]; [| constructor].
        repeat (constructor; [exact I |]).
        apply sections_keep_overall.
        destruct (0 <? _); [apply detail_sections_are_sections | constructor].
    + unfold len. pose proof (filter_length_le has_known_status (results r)).
      lia.
  - intros H. unfold run_updates.
    destruct (run_details r) as [c|e]; [| reflexivity].
    destruct (H c eq_refl) as [-> | ->]; [reflexivity |].
    now rewrite orb_true_r.
Qed.

(** [detailed_run]: five results, three of them counted. *)
Lemma run_adds_each_test_once_witness :
  total_counts (overall (exec (run_updates false false detailed_run)
                              (new_build_data "T-202506251848" "2025-06-25")))
  = total_counts (overall (new_build_data "T-202506251848" "2025-06-25"))
    + len (filter has_known_status (results detailed_run))
  /\ len (filter has_known_status (results detailed_run))
     <= len (results detailed_run).
Proof.
  apply (proj1 (proj2 (run_adds_each_test_once false false detailed_run
                         (new_build_data "T-202506251848" "2025-06-25")))
               (mkRunCounts 9 9 9 9 9 9 9)).
  - reflexivity.
  - vm_compute. discriminate.
  - vm_compute. discriminate.
  - reflexivity.
Defined.

Lemma net_classified_shape (m : metric) (p : string) (d : device)
      (a b c x y z : Z) (secs : list update) :
  match m with m_passed | m_failed | m_error => True | _ => False end ->
  Forall is_section_update secs ->
  net m ([ AddOverall m_passed a; AddOverall m_failed b; AddOverall m_error c;
           AddOverall m_blocked x; AddOverall m_retest y; AddOverall m_skipped z ]
         ++ [ AddBucket p d m_passed a; AddBucket p d m_failed b;
              AddBucket p d m_error c ] ++ secs) = 0.
Proof.
  intros Hm Hsecs. rewrite !net_app, (net_sections m secs Hsecs).
  destruct m; simpl in *; try contradiction; lia.
Qed.

Lemma net_run_classified (m : metric) (force_summary_only fetch_sections : bool)
      (r : run) :
  is_classified r ->
  match m with m_passed | m_failed | m_error => True | _ => False end ->
  net m (run_updates force_summary_only fetch_sections r) = 0.
Proof.
  unfold is_classified. intros Hc Hm. unfold run_updates.
  destruct (run_details r) as [c|e]; [| reflexivity].
  destruct ((test_count c =? 0) || (executed_count c =? 0)); [reflexivity |].
  destruct (results_fetched force_summary_only r c).
  - unfold detail_updates.
    destruct (classified r) as [d|]; [| now elim Hc].
    apply net_classified_shape; [exact Hm |].
    destruct (0 <? _); [apply detail_sections_are_sections | constructor].
  - unfold summary_updates.
    destruct (classified r) as [d|]; [| now elim Hc].
    apply net_classified_shape; [exact Hm |].
    destruct (0 <? _); [apply summary_sections_are_sections | constructor].
Qed.

Lemma net_build_classified (m : metric)
      (force_summary_only fetch_sections : bool) (runs : list run) :
  Forall is_classified runs ->
  match m with m_passed | m_failed | m_error => True | _ => False end ->
  net m (build_updates force_summary_only fetch_sections runs) = 0.
Proof.
  intros H Hm. unfold build_updates.
  induction H as [|r runs Hr _ IH]; [reflexivity |].
  cbn [flat_map]. rewrite net_app, IH, (net_run_classified m _ _ r Hr Hm).
  reflexivity.
Qed.

(** When every run of a build is on a known platform and of a known
    topology, the buckets account for the overall counts: in the finished
    record the passed, failed and error counts are each equal to the sum
    of that count over all platform and topology buckets. *)
Theorem classified_runs_fill_the_buckets
        (force_summary_only fetch_sections : bool) (build_name date : string)
        (runs : list run) :
  Forall is_classified runs ->
  let bd := aggregate_build force_summary_only fetch_sections build_name date
                            runs in
  bucket_sum m_passed (platforms bd) = passed (overall bd) /\
  bucket_sum m_failed (platforms bd) = failed (overall bd) /\
  bucket_sum m_error (platforms bd) = error (overall bd).
Proof.
  intros Hruns bd. subst bd. unfold aggregate_build.
  pose proof (fun m => slack_exec m
                (build_updates force_summary_only fetch_sections runs)
                (new_build_data build_name date)) as Hs.
  pose proof (fun m => net_build_classified m force_summary_only fetch_sections
                runs Hruns) as Hn.
  pose proof (Hs m_passed) as H1. rewrite (Hn m_passed I) in H1.
  pose proof (Hs m_failed) as H2. rewrite (Hn m_failed I) in H2.
  pose proof (Hs m_error) as H3. rewrite (Hn m_error I) in H3.
  unfold slack in H1, H2, H3. simpl in H1, H2, H3.
  repeat split; lia.
Qed.

Lemma classified_runs_fill_the_buckets_witness :
  let bd := aggregate_build false true "T-202506251848" "2025-06-25"
                            [summary_run 5 7 3 ten_sections; detailed_run] in
  bucket_sum m_passed (platforms bd) = passed (overall bd) /\
  bucket_sum m_failed (platforms bd) = failed (overall bd) /\
  bucket_sum m_error (platforms bd) = error (overall bd).
Proof.
  apply (classified_runs_fill_the_buckets false true "T-202506251848"
           "2025-06-25" [summary_run 5 7 3 ten_sections; detailed_run]).
  repeat constructor; discriminate.
Defined.

Lemma total_of_dict_add (label : string) (n : Z) (secs : dict Z) :
  total_of (dict_set label (dict_get_default label 0 secs + n) secs)
  = total_of secs + n.
Proof.
  unfold dict_get_default.
  induction secs as [|[k v] secs IH]; cbn [dict_set dict_get total_of].
  - lia.
  - destruct (k =? label)%string; cbn [total_of]; [lia | rewrite IH; lia].
Qed.

Lemma sections_sum_dict_set (p : string) (pd : platform_data) :
  forall ps : dict platform_data,
    sections_sum (dict_set p pd ps)
    = sections_sum ps
      + (bucket_sections (on_single pd) + bucket_sections (on_stack pd))
      - (bucket_sections (on_single (dict_get_default p empty_platform ps))
         + bucket_sections (on_stack (dict_get_default p empty_platform ps))).
Proof.
  unfold dict_get_default.
  induction ps as [|[k v] ps IH]; cbn [dict_set dict_get sections_sum].
  - unfold bucket_sections. simpl. lia.
  - destruct (k =? p)%string; cbn [sections_sum]; [lia | rewrite IH; lia].
Qed.

Lemma sections_sum_update (p : string) (d : device) (f : bucket -> bucket)
      (ps : dict platform_data) :
  sections_sum (update_bucket p d f ps)
  = sections_sum ps
    + bucket_sections (f (bucket_of (dict_get_default p empty_platform ps) d))
    - bucket_sections (bucket_of (dict_get_default p empty_platform ps) d).
Proof.
  unfold update_bucket. rewrite sections_sum_dict_set.
  destruct d; simpl; lia.
Qed.

Lemma unattributed_apply (bd : build_data) (u : update) :
  unattributed (apply_update bd u) = unattributed bd + unattributed_effect u.
Proof.
  unfold unattributed. destruct u as [m n | p d m n | p d label n];
    cbn [apply_update with_overall with_platforms platforms].
  - simpl. lia.
  - rewrite !bucket_sum_update, sections_sum_update.
    destruct m; unfold bucket_sections; simpl; lia.
  - rewrite !bucket_sum_update, sections_sum_update.
    destruct (bucket_of (dict_get_default p empty_platform (platforms bd)) d)
      as [bp bf be secs].
    unfold bucket_sections, add_section, set_section.
    cbn [sections bucket_count b_passed b_failed b_error unattributed_effect].
    rewrite total_of_dict_add. lia.
Qed.

Lemma unattributed_exec (us : list update) :
  forall bd, unattributed (exec us bd) = unattributed bd + unattributed_net us.
Proof.
  unfold exec.
  induction us as [|u us IH]; intros bd; simpl; [lia |].
  rewrite IH, unattributed_apply. lia.
Qed.

Lemma unattributed_net_app (us vs : list update) :
  unattributed_net (us ++ vs) = unattributed_net us + unattributed_net vs.
Proof. induction us; simpl; lia. Qed.

Lemma unattributed_net_sections (us : list update) :
  Forall is_section_update us ->
  unattributed_net us = - section_total us.
Proof.
  induction 1 as [|u us Hu _ IH]; [reflexivity |].
  destruct u; simpl in *; try contradiction. lia.
Qed.

Lemma section_total_add_sections (p : string) (d : device)
      (l : list (string * Z)) :
  section_total (add_sections p d l) = total_of l.
Proof.
  unfold add_sections.
  induction l as [|[label n] l IH]; simpl; [reflexivity | now rewrite IH].
Qed.

(** What the summary-only tier attributes to sections for a run with
    [total] failures and errors: never more than [total], and exactly
    [total] unless the suite has more than five named sections. *)
Lemma summary_sections_total (fetch_sections : bool) (r : run) (d : device)
      (total : Z) :
  0 < total ->
  0 <= section_total (summary_sections fetch_sections r d total) <= total /\
  ((forall items, suite_sections r = Ok (JList items) ->
                  len (section_names_of items) <= 5) ->
   section_total (summary_sections fetch_sections r d total) = total).
Proof.
  intros Ht. unfold summary_sections.
  destruct fetch_sections; [| simpl; lia].
  destruct (has_suite r); [| simpl; lia].
  destruct (suite_sections r) as [j|e]; [| simpl; lia].
  destruct (truthy j); [| simpl; lia].
  destruct j as [| | | |items|]; try (simpl; lia).
  destruct (0 <? len (section_names_of items)) eqn:E; [| simpl; lia].
  apply Z.ltb_lt in E.
  rewrite section_total_add_sections.
  split; [apply estimate_total_bounds; lia |].
  intros H. apply estimate_small_suite; [lia |].
  split; [exact E | now apply H].
Qed.

Lemma unattributed_net_summary_run (fetch_sections : bool) (r : run) :
  reports_counts r ->
  0 <= unattributed_net (run_updates true fetch_sections r) /\
  (fetch_sections = false ->
   unattributed_net (run_updates true fetch_sections r) = 0).
Proof.
  unfold reports_counts, run_updates.
  destruct (run_details r) as [c|e]; [| intros _; simpl; lia].
  intros (Hp & Hf & Hb & Hr & Hu & Hs & He).
  destruct ((test_count c =? 0) || (executed_count c =? 0)); [simpl; lia |].
  cbn [results_fetched]. unfold summary_updates.
  destruct (classified r) as [d|]; [| simpl; lia].
  rewrite !unattributed_net_app.
  destruct (0 <? failed_count c + custom_status2_count c) eqn:E.
  - apply Z.ltb_lt in E.
    rewrite (unattributed_net_sections _
               (summary_sections_are_sections fetch_sections r d _)).
    destruct (summary_sections_total fetch_sections r d _ E) as [Hb' _].
    split; [simpl; lia |].
    intros ->. simpl. lia.
  - apply Z.ltb_ge in E. simpl. lia.
Qed.

(** In summary-only mode the sections never account for more than the
    failures and errors: provided the counts the runs report are not
    negative, the section counts of the finished record sum to at most the
    failed and error counts of its buckets, and to exactly those when the
    fetching of sections is switched off. *)
Theorem summary_only_sections_within_failures
        (fetch_sections : bool) (build_name date : string) (runs : list run) :
  Forall reports_counts runs ->
  let bd := aggregate_build true fetch_sections build_name date runs in
  sections_sum (platforms bd)
  <= bucket_sum m_failed (platforms bd) + bucket_sum m_error (platforms bd) /\
  (fetch_sections = false ->
   sections_sum (platforms bd)
   = bucket_sum m_failed (platforms bd) + bucket_sum m_error (platforms bd)).
Proof.
  intros Hruns bd. subst bd. unfold aggregate_build.
  assert (Hnet : 0 <= unattributed_net (build_updates true fetch_sections runs)
                 /\ (fetch_sections = false ->
                     unattributed_net (build_updates true fetch_sections runs) = 0)).
  { unfold build_updates.
    induction Hruns as [|r runs Hr _ IH]; [simpl; split; [lia | reflexivity] |].
    cbn [flat_map]. rewrite unattributed_net_app.
    destruct (unattributed_net_summary_run fetch_sections r Hr) as [H1 H2].
    destruct IH as [H3 H4].
    split; [lia |]. intros E. rewrite (H2 E), (H4 E). reflexivity. }
  destruct Hnet as [Hge Heq].
  pose proof (unattributed_exec (build_updates true fetch_sections runs)
                (new_build_data build_name date)) as Hexec.
  unfold unattributed in Hexec. simpl in Hexec.
  split; [lia |]. intros E. specialize (Heq E). lia.
Qed.

Lemma summary_only_sections_within_failures_witness :
  let bd := aggregate_build true true "T-202506251848" "2025-06-25"
                            [summary_run 5 7 3 ten_sections; unclassified_run] in
  sections_sum (platforms bd)
  <= bucket_sum m_failed (platforms bd) + bucket_sum m_error (platforms bd) /\
  (true = false ->
   sections_sum (platforms bd)
   = bucket_sum m_failed (platforms bd) + bucket_sum m_error (platforms bd)).
Proof.
  apply (summary_only_sections_within_failures true "T-202506251848"
           "2025-06-25" [summary_run 5 7 3 ten_sections; unclassified_run]).
  repeat constructor; simpl; lia.
Defined.

(** ** Selection of the builds *)





Section Sorting.

Variable A : Type.









End Sorting.





(** ** Platform and device classifier *)

Example classifier_examples :
  categorize_device "Switch-A-STACK-Test" = "stack" /\
  categorize_device "ms390 standalone" = "single" /\
  categorize_device "Switch-B-MS130" = "single" /\
  categorize_device "smoke" = "unknown" /\
  extract_platform "Switch-B-MS130 single" = "MS130" /\
  extract_platform "sanity ms-130" = "MS130" /\
  extract_platform "C9300L-48 stack" = "C9300" /\
  extract_platform "c1234ab run" = "C1234ab" /\
  extract_platform "smoke" = "Unknown".
Proof.
  repeat split; vm_compute; reflexivity.
Qed.

Lemma ieq_upper (p : ascii) :
  forallb (fun n => negb (ieq (ascii_of_nat n) p)
                    || (is_ascii_lower p
                        && match upper_char (ascii_of_nat n) with
                           | [u] => u =? ord p - 32
                           | _ => false
                           end))
          (seq 0 256) = true ->
  forall c, ieq c p = true -> upper_char c = [ord p - 32].
Proof.
  intros H c Hc.
  pose proof (forall_ascii
                (fun a => negb (ieq a p)
                          || (is_ascii_lower p
                              && match upper_char a with
                                 | [u] => u =? ord p - 32
                                 | _ => false
                                 end)) H c) as Hall.
  cbv beta in Hall.
  rewrite Hc in Hall. cbn [negb orb] in Hall.
  apply andb_true_iff in Hall. destruct Hall as [_ Hall].
  destruct (upper_char c) as [|u [|v l]]; try discriminate.
  apply Z.eqb_eq in Hall. now rewrite Hall.
Qed.









Lemma starts_with_points_trans (n1 n2 hay : list Z) :
  starts_with_points n1 n2 = true ->
  starts_with_points n2 hay = true ->
  starts_with_points n1 hay = true.
Proof.
  revert n2 hay.
  induction n1 as [|a n1 IH]; intros n2 hay H1 H2; [reflexivity |].
  destruct n2 as [|b n2]; [discriminate |].
  destruct hay as [|h hay]; [discriminate |].
  cbn [starts_with_points] in *.
  apply andb_true_iff in H1, H2. destruct H1 as [E1 H1], H2 as [E2 H2].
  apply Z.eqb_eq in E1, E2. subst.
  rewrite Z.eqb_refl. cbn [andb]. eapply IH; eassumption.
Qed.

(** A name that is found is found with every name it begins with. *)
Lemma contains_points_prefix (n1 n2 hay : list Z) :
  starts_with_points n1 n2 = true ->
  contains_points n2 hay = true ->
  contains_points n1 hay = true.
Proof.
  intros Hp. induction hay as [|h hay IH]; cbn [contains_points]; intros H.
  - rewrite orb_false_r in *.
    now rewrite (starts_with_points_trans _ _ _ Hp H).
  - apply orb_true_iff in H. destruct H as [H | H].
    + now rewrite (starts_with_points_trans _ _ _ Hp H).
    + rewrite (IH H). apply orb_true_r.
Qed.

Lemma contains_points_app (needle a b : list Z) :
  contains_points needle b = true -> contains_points needle (a ++ b) = true.
Proof.
  intros H. induction a as [|x a IH]; [exact H |].
  cbn [List.app contains_points]. rewrite IH. apply orb_true_r.
Qed.

Lemma contains_points_head (needle hay : list Z) :
  starts_with_points needle hay = true -> contains_points needle hay = true.
Proof.
  intros H. destruct hay; cbn [contains_points]; now rewrite H.
Qed.

Lemma upper_app (s1 s2 : string) :
  upper (s1 ++ s2) = upper s1 ++ upper s2.
Proof.
  induction s1 as [|c s1 IH]; cbn [String.append upper]; [reflexivity |].
  now rewrite IH, <- app_assoc.
Qed.

Lemma re_search_found {G : Type} (match_at : string -> option G) (g : G) :
  forall s : string,
    re_search match_at s = Some g ->
    exists before rest, s = (before ++ rest)%string /\ match_at rest = Some g.
Proof.
  induction s as [|c s IH]; cbn [re_search]; intros H.
  - destruct (match_at EmptyString) eqn:E; [| discriminate].
    exists EmptyString, EmptyString. split; [reflexivity | congruence].
  - destruct (match_at (String c s)) eqn:E.
    + exists EmptyString, (String c s). split; [reflexivity | congruence].
    + destruct (IH H) as (before & rest & -> & Hm).
      exists (String c before), rest. split; [reflexivity | exact Hm].
Qed.

Lemma digits_split (n : nat) :
  forall (s g rest : string),
    digits n s = Some (g, rest) ->
    s = (g ++ rest)%string /\ String.length g = n.
Proof.
  induction n as [|n IH]; intros s g rest H.
  - injection H as <- <-. split; reflexivity.
  - destruct s as [|c s]; [discriminate |]. cbn [digits] in H.
    destruct (re_digit c); [| discriminate].
    destruct (digits n s) as [[g' rest']|] eqn:E; [| discriminate].
    injection H as <- <-. destruct (IH _ _ _ E) as [-> Hlen].
    split; [reflexivity | cbn [String.length]; now rewrite Hlen].
Qed.

Lemma digit_upper (c : ascii) : re_digit c = true -> upper_char c = [ord c].
Proof.
  revert c.
  assert (H : forall c, negb (re_digit c)
                        || match upper_char c with
                           | [u] => u =? ord c
                           | _ => false
                           end = true)
    by (apply forall_ascii; vm_compute; reflexivity).
  intros c Hc. specialize (H c). rewrite Hc in H. cbn [negb orb] in H.
  destruct (upper_char c) as [|u [|v l]]; try discriminate.
  apply Z.eqb_eq in H. now rewrite H.
Qed.

(** Where [c_pattern] matches, the name in capitals holds the letter C and
    the four digits of the group. *)
Lemma c_pattern_in_upper (run_name g : string) :
  re_search c_pattern run_name = Some g ->
  exists d1 d2 d3 d4 letters,
    g = String d1 (String d2 (String d3 (String d4 letters))) /\
    contains_points [67; ord d1; ord d2; ord d3; ord d4] (upper run_name)
    = true.
Proof.
  intros H. apply re_search_found in H.
  destruct H as (before & rest & -> & Hm).
  unfold c_pattern in Hm. destruct rest as [|c rest]; [discriminate |].
  destruct (ieq c "c") eqn:Ec; [| discriminate].
  destruct (digits 4 rest) as [[g4 rest']|] eqn:Ed; [| discriminate].
  injection Hm as <-.
  assert (Hdig : forall n s g0 r0,
             digits n s = Some (g0, r0) -> upper s = points g0 ++ upper r0).
  { induction n as [|n IH]; intros s g0 r0 Hd.
    - injection Hd as <- <-. reflexivity.
    - destruct s as [|a s]; [discriminate |]. cbn [digits] in Hd.
      destruct (re_digit a) eqn:Ea; [| discriminate].
      destruct (digits n s) as [[g' r']|] eqn:E; [| discriminate].
      injection Hd as <- <-. cbn [upper points].
      rewrite (digit_upper a Ea), (IH _ _ _ E). reflexivity. }
  pose proof (Hdig _ _ _ _ Ed) as Hup.
  destruct (digits_split _ _ _ _ Ed) as [_ Hlen].
  destruct g4 as [|d1 [|d2 [|d3 [|d4 [|d5 g4]]]]]; try discriminate.
  exists d1, d2, d3, d4, (fst (span re_letter rest')).
  split; [reflexivity |].
  rewrite upper_app. apply contains_points_app. cbn [upper].
  rewrite (ieq_upper "c" eq_refl c Ec), Hup.
  apply contains_points_head. cbn [points List.app starts_with_points].
  now rewrite !Z.eqb_refl.
Qed.

Lemma extract_platform_not_shadowed (run_name : string) :
  ~ In (extract_platform run_name) shadowed_platforms.
Proof.
  unfold extract_platform.
  destruct (find _ known_platforms) as [platform|] eqn:F.
  - cbn [find known_platforms] in F.
    repeat match type of F with
           | (if ?b then _ else _) = _ => destruct b eqn:?
           end;
      try (injection F as <-; cbn [In shadowed_platforms];
           intuition discriminate);
      try discriminate.
    all: injection F as <-.
    all: repeat match goal with
           | H : contains_points (points ?long) ?u = true,
             H' : contains_points (points ?short) ?u = false |- _ =>
               first [ rewrite (contains_points_prefix (points short)
                                  (points long) u eq_refl H) in H';
                       discriminate
                     | fail 1 ]
           end.
  - pose proof (find_none _ _ F) as Hnone. cbv beta in Hnone.
    assert (H93 : contains_points (points "C9300") (upper run_name) = false)
      by (apply Hnone; cbn; tauto).
    assert (H92 : contains_points (points "C9200") (upper run_name) = false)
      by (apply Hnone; cbn; tauto).
    destruct (re_search ms_pattern run_name) as [g|];
      [cbn [In shadowed_platforms String.append]; intuition discriminate |].
    destruct (re_search c_pattern run_name) as [g|] eqn:Ec;
      [| cbn [In shadowed_platforms]; intuition discriminate].
    destruct (c_pattern_in_upper _ _ Ec) as (d1 & d2 & d3 & d4 & l & -> & Hin).
    cbn [In shadowed_platforms String.append].
    intros [E | [E | [E | [E | []]]]]; injection E as <- <- <- <- _;
      vm_compute in H93, H92; vm_compute in Hin; congruence.
Qed.

(** The platform names [C9300L], [C9300X], [C9200L] and [C9200CX] are
    never the answer of [extract_platform]: a run name that holds one of
    them holds [C9300] or [C9200], which stands before it in the list, and
    the two patterns are only tried on names that hold neither. *)
Theorem extract_platform_never_returns_shadowed (run_name : string) :
  existsb (String.eqb (extract_platform run_name)) shadowed_platforms = false.
Proof.
  apply not_true_iff_false. intros H. apply existsb_exists in H.
  destruct H as [p [Hin Heq]]. apply String.eqb_eq in Heq. subst p.
  now apply (extract_platform_not_shadowed run_name).
Qed.

Lemma extract_platform_shape (run_name : string) :
  header_of (extract_platform run_name) = None /\
  extract_platform run_name <> EmptyString /\
  (extract_platform run_name = "Unknown"
   \/ In (extract_platform run_name) known_platforms
   \/ (exists g, extract_platform run_name = ("MS" ++ g)%string
                 /\ re_search ms_pattern run_name = Some g)
   \/ (exists d1 d2 d3 d4 letters,
          extract_platform run_name
          = String "C" (String d1 (String d2 (String d3 (String d4 letters)))))).
Proof.
  unfold extract_platform.
  destruct (find _ known_platforms) as [platform|] eqn:F.
  - apply find_some in F. destruct F as [Hin _].
    assert (Hall : forallb (fun p => match header_of p with
                                     | None => negb (p =? "")%string
                                     | Some _ => false
                                     end) known_platforms = true)
      by (vm_compute; reflexivity).
    rewrite forallb_forall in Hall. specialize (Hall _ Hin).
    destruct (header_of platform); [discriminate |].
    split; [reflexivity | split].
    + intros ->. discriminate.
    + right. left. exact Hin.
  - destruct (re_search ms_pattern run_name) as [g|] eqn:Em.
    + split; [reflexivity | split; [discriminate |]].
      right. right. left. now exists g.
    + destruct (re_search c_pattern run_name) as [g|] eqn:Ec.
      * destruct (c_pattern_in_upper _ _ Ec) as (d1 & d2 & d3 & d4 & l & -> & _).
        split; [reflexivity | split; [discriminate |]].
        right. right. right. now exists d1, d2, d3, d4, l.
      * split; [reflexivity | split; [discriminate |]]. now left.
Qed.

(** An answer of [extract_platform] is never read as a section header by
    the cache: it is ["Unknown"], a name of the list, ["MS"] followed by
    the digits the first pattern has found, or ["C"] followed by four
    characters or more, and none of these is [SUMMARY], [PLATFORMS] or
    [SECTIONS]; nor is it empty. *)
Theorem extract_platform_is_no_header (run_name : string) :
  header_of (extract_platform run_name) = None /\
  (extract_platform run_name =? "")%string = false /\
  (extract_platform run_name = "Unknown"
   \/ In (extract_platform run_name) known_platforms
   \/ (exists g, extract_platform run_name = ("MS" ++ g)%string
                 /\ re_search ms_pattern run_name = Some g)
   \/ (exists d1 d2 d3 d4 letters,
          extract_platform run_name
          = String "C" (String d1 (String d2 (String d3 (String d4 letters)))))).
Proof.
  destruct (extract_platform_shape run_name) as (H1 & H2 & H3).
  split; [exact H1 | split; [| exact H3]].
  now apply String.eqb_neq.
Qed.

(** ** From the accumulation to the cache *)












(** ** The release milestone *)

Lemma matching_milestones_spec (release_milestone : string)
      (milestones : list json) (fields : dict json) :
  In fields (matching_milestones release_milestone milestones) <->
  In (JDict fields) milestones /\
  dict_get "name" fields = Some (JStr release_milestone).
Proof.
  unfold matching_milestones. rewrite in_flat_map. split.
  - intros [ms [Hin Hf]].
    destruct ms as [| | | | |fs]; try contradiction.
    destruct (is_named release_milestone (JDict fs)) eqn:E; [| contradiction].
    destruct Hf as [<-|[]]. split; [exact Hin |].
    cbn [is_named] in E.
    destruct (dict_get "name" fs) as [[| | |s| |]|]; try discriminate.
    apply String.eqb_eq in E. now subst s.
  - intros [Hin Hname]. exists (JDict fields). split; [exact Hin |].
    cbn [is_named]. rewrite Hname, String.eqb_refl. now left.
Qed.

Lemma matching_milestones_nil (release_milestone : string)
      (milestones : list json) :
  matching_milestones release_milestone milestones = [] <->
  forall ms, In ms milestones -> is_named release_milestone ms = false.
Proof.
  unfold matching_milestones.
  induction milestones as [|ms rest IH]; cbn [flat_map].
  - split; [intros _ ms [] | reflexivity].
  - split.
    + intros H. apply app_eq_nil in H. destruct H as [H1 H2].
      intros ms' [<-|Hin]; [| now apply (proj1 IH H2)].
      destruct ms as [| | | | |fs]; try reflexivity.
      destruct (is_named release_milestone (JDict fs)); [discriminate | reflexivity].
    + intros H.
      rewrite (proj2 IH (fun ms' Hin => H ms' (or_intror Hin))).
      rewrite app_nil_r.
      pose proof (H ms (or_introl eq_refl)) as Hms.
      destruct ms as [| | | | |fs]; try reflexivity.
      now rewrite Hms.
Qed.

Lemma with_child_counts_spec (l : list (dict json)) :
  (forall counted,
      with_child_counts l = Ok counted ->
      map fst counted = l /\
      Forall (fun xn => child_count (fst xn) = Ok (snd xn)) counted) /\
  (forall e, with_child_counts l = Raise e ->
             e = TypeError /\ exists x, In x l /\ child_count x = Raise TypeError).
Proof.
  induction l as [|x rest [IHok IHraise]]; cbn [with_child_counts].
  - split; [intros counted [= <-]; split; constructor | discriminate].
  - assert (Hty : forall e, child_count x = Raise e -> e = TypeError).
    { unfold child_count.
      destruct (dict_get_default "milestones" (JList []) x);
        intros e H; congruence. }
    destruct (child_count x) as [n|e] eqn:Ex; cbn [bind].
    + destruct (with_child_counts rest) as [counted|e] eqn:Er; cbn [bind].
      * split; [| discriminate].
        intros counted' [= <-].
        destruct (IHok counted eq_refl) as [Hm Hf].
        split; [cbn [map fst]; now rewrite Hm |].
        constructor; [exact Ex | exact Hf].
      * split; [discriminate |].
        intros e' [= <-].
        destruct (IHraise e eq_refl) as [-> [y [Hin Hy]]].
        split; [reflexivity |]. exists y. split; [now right | exact Hy].
    + split; [discriminate |].
      intros e' [= <-]. rewrite (Hty e eq_refl) in *.
      split; [reflexivity |]. exists x. split; [now left | exact Ex].
Qed.

(** The first item after the sort: it has the greatest key, and the items
    that stood before it have a smaller key. *)
Lemma sort_by_count_head {A : Type} (l : list (A * Z)) :
  match hd_error (sort_by_count l) with
  | None => l = []
  | Some x =>
      exists before after,
        l = before ++ x :: after /\
        Forall (fun y => snd y < snd x) before /\
        Forall (fun y => snd y <= snd x) after
  end.
Proof.
  induction l as [|x l IH]; [reflexivity |].
  cbn [sort_by_count fold_right]. fold (sort_by_count l).
  destruct (sort_by_count l) as [|y s] eqn:Es; cbn [hd_error] in IH.
  - subst l. cbn. exists [], []. repeat split; constructor.
  - destruct IH as (before & after & -> & Hb & Ha).
    cbn [insert_by_count].
    destruct (snd x <? snd y) eqn:E; cbn [hd_error].
    + apply Z.ltb_lt in E.
      exists (x :: before), after. split; [reflexivity |].
      split; [constructor; assumption | exact Ha].
    + apply Z.ltb_ge in E.
      exists [], (before ++ y :: after). split; [reflexivity |].
      split; [constructor |].
      apply Forall_app. split.
      * eapply Forall_impl; [| exact Hb]. cbv beta. intros; lia.
      * constructor; [exact E |].
        eapply Forall_impl; [| exact Ha]. cbv beta. intros; lia.
Qed.

(** Which milestone stands for the release.  No milestone is chosen
    exactly when none is a dict with the name of the release.  A chosen
    milestone is one of the list and has that name; a single milestone of
    that name is chosen whatever its children are; among several, the
    chosen one has the most children, and of those with the most the one
    that comes first.  The choice only raises, a [TypeError], when several
    milestones have the name and the children of one have no length. *)
Theorem find_release_milestone_has_most_children
        (release_milestone : string) (milestones : list json) :
  (find_release_milestone release_milestone milestones = Ok None <->
   forall ms, In ms milestones -> is_named release_milestone ms = false) /\
  (forall release_ms : dict json,
      find_release_milestone release_milestone milestones = Ok (Some release_ms) ->
      In (JDict release_ms) milestones /\
      dict_get "name" release_ms = Some (JStr release_milestone) /\
      (matching_milestones release_milestone milestones = [release_ms] \/
       exists before after n,
         matching_milestones release_milestone milestones
         = before ++ release_ms :: after /\
         child_count release_ms = Ok n /\
         Forall (fun x => exists k, child_count x = Ok k /\ k < n) before /\
         Forall (fun x => exists k, child_count x = Ok k /\ k <= n) after)) /\
  (forall e : exn,
      find_release_milestone release_milestone milestones = Raise e ->
      e = TypeError /\
      (2 <= List.length (matching_milestones release_milestone milestones))%nat /\
      exists x, In x (matching_milestones release_milestone milestones) /\
                child_count x = Raise TypeError).
Proof.
  pose proof (matching_milestones_nil release_milestone milestones) as Hnil.
  pose proof (matching_milestones_spec release_milestone milestones) as Hspec.
  unfold find_release_milestone.
  destruct (matching_milestones release_milestone milestones)
    as [|m1 [|m2 rest]] eqn:Em.
  - split; [| split].
    + split; [intros _; now apply Hnil | reflexivity].
    + discriminate.
    + discriminate.
  - split; [| split].
    + split; [discriminate |].
      intros H. apply (proj2 Hnil) in H. discriminate.
    + intros release_ms [= <-].
      destruct (proj1 (Hspec m1) (or_introl eq_refl)) as [Hin Hname].
      split; [exact Hin | split; [exact Hname | now left]].
    + discriminate.
  - set (matching := m1 :: m2 :: rest) in *.
    destruct (with_child_counts_spec matching) as [Hok Hraise].
    destruct (with_child_counts matching) as [counted|e] eqn:Ec; cbn [bind].
    + destruct (Hok counted eq_refl) as [Hmap Hcount].
      pose proof (sort_by_count_head counted) as Hhead.
      split; [| split].
      * split.
        -- destruct (hd_error (sort_by_count counted)); [discriminate |].
           subst counted. discriminate.
        -- intros H. apply (proj2 Hnil) in H. discriminate.
      * intros release_ms H.
        destruct (hd_error (sort_by_count counted)) as [[x n]|];
          [| discriminate].
        cbn [option_map fst] in H. injection H as <-.
        destruct Hhead as (before & after & -> & Hb & Ha).
        rewrite map_app in Hmap. cbn [map fst] in Hmap.
        assert (Hin : In x matching)
          by (rewrite <- Hmap; apply in_or_app; right; now left).
        destruct (proj1 (Hspec x) Hin) as [Hin' Hname].
        split; [exact Hin' | split; [exact Hname | right]].
        exists (map fst before), (map fst after), n.
        split; [now rewrite Hmap |].
        apply Forall_app in Hcount. destruct Hcount as [Hcb Hca].
        inversion Hca as [|? ? Hx Hca']; subst. cbn [fst snd] in Hx, Hb, Ha.
        split; [exact Hx |].
        split; apply Forall_map.
        -- rewrite Forall_forall in *. intros y Hy.
           exists (snd y). split; [now apply Hcb | now apply Hb].
        -- rewrite Forall_forall in *. intros y Hy.
           exists (snd y). split; [now apply Hca' | now apply Ha].
      * discriminate.
    + destruct (Hraise e eq_refl) as [-> Hx].
      split; [| split].
      * split; [discriminate |].
        intros H. apply (proj2 Hnil) in H. discriminate.
      * discriminate.
      * intros e' [= <-]. split; [reflexivity |].
        split; [unfold matching; cbn [List.length]; lia | exact Hx].
Qed.

(** The release created twice: the one with two builds is chosen although
    it comes second. *)
Lemma find_release_milestone_has_most_children_witness :
  In (JDict [("id", JNum 3); ("name", JStr "switch-18");
             ("milestones",
              JList [child_json 31 "switch-18-202506182240";
                     child_json 32 "switch-18-202506192240"])])
     release_twice.
Proof.
  apply (proj1 (proj2 (find_release_milestone_has_most_children
                         "switch-18" release_twice)) _ eq_refl).
Defined.
